(** * Deployment orchestration scripts: a shallow embedding

    The three scripts of the repository are embedded module by module:
    - [HealthCheck] : src/health_check_script.py (class HealthChecker)
    - [Deploy]      : src/deploy_script.py (class DeploymentManager, main)
    - [Rollback]    : src/rollback_script.py (class RollbackManager, main)
    [Py] holds the Python values and exceptions they share, [Aws] the
    service calls and the state of a run, [Samples] concrete environments.

    The cloud services, the HTTP endpoint, the clocks and the object store
    are outside the repository.  Their answers are supplied by the
    environment as scripts (lists of successive responses); a poll loop
    that outlives its script yields [None], which stands for "still
    polling".  Every service call may raise. *)

From Stdlib Require Import ZArith QArith Lia.
From stdpp Require Import base strings gmap list sorting.

Set Warnings "-register-all".
Open Scope Z_scope.

(** * Python values and control effects *)
Module Py.

(** The exception classes that the scripts meet.  [RequestException] stands
    for requests.exceptions.RequestException and its transport subclasses
    (ConnectionError, Timeout, ...); [JSONDecodeError] is
    requests.exceptions.JSONDecodeError, which the requests library declares
    as a subclass of InvalidJSONError and hence of RequestException;
    [ClientError] is botocore's. The others are Python's built-in classes;
    none of them derives from RequestException. *)
Inductive exn : Type :=
  | RequestException
  | JSONDecodeError
  | ClientError
  | AttributeError
  | KeyError
  | TypeError
  | ValueError
  | ZeroDivisionError
  | OverflowError
  | RecursionError.

(** [isinstance(e, requests.exceptions.RequestException)] *)
Definition is_RequestException (e : exn) : bool :=
  match e with
  | RequestException | JSONDecodeError => true
  | _ => false
  end.

(** A call either returns a value or raises. *)
Inductive result (A : Type) : Type :=
  | Return (a : A)
  | Raise (e : exn).
Arguments Return {A} a.
Arguments Raise {A} e.

#[global] Instance result_ret : MRet result := fun _ a => Return a.
#[global] Instance result_bind : MBind result := fun _ _ k r =>
  match r with
  | Return a => k a
  | Raise e => Raise e
  end.

(** [try: body  except RequestException: handler] *)
Definition except_RequestException {A} (body handler : result A) : result A :=
  match body with
  | Return a => Return a
  | Raise e => if is_RequestException e then handler else Raise e
  end.

(** JSON documents as [json.loads] and [response.json()] deliver them.
    A Python dict is kept as an association list in insertion order; a
    number is an int of any size or a finite float (the non-finite floats
    that the decoder also accepts are not represented). *)
Inductive json : Type :=
  | JNull
  | JBool (b : bool)
  | JNum (x : Q)
  | JStr (s : string)
  | JList (l : list json)
  | JObj (m : list (string * json)).

(** Python truthiness, as tested by [if not x]. *)
Definition truthy (j : json) : bool :=
  match j with
  | JNull => false
  | JBool b => b
  | JNum x => negb (Qeq_bool x 0)
  | JStr s => negb (String.eqb s "")
  | JList l => match l with [] => false | _ => true end
  | JObj m => match m with [] => false | _ => true end
  end.

(** [d.get(k)] on an association list; the first binding of a key is the
    one that counts. *)
Fixpoint dict_get (k : string) (m : list (string * json)) : option json :=
  match m with
  | [] => None
  | (k', v) :: m' => if String.eqb k k' then Some v else dict_get k m'
  end.

(** [j.get(k)]: only a dict has the method. *)
Definition json_get (k : string) (j : json) : result (option json) :=
  match j with
  | JObj m => Return (dict_get k m)
  | _ => Raise AttributeError
  end.

(** [j[k]] *)
Definition json_item (k : string) (j : json) : result json :=
  match j with
  | JObj m => match dict_get k m with
              | Some v => Return v
              | None => Raise KeyError
              end
  | _ => Raise TypeError
  end.

(** [v == s] for a string literal [s] *)
Definition json_eq_str (v : option json) (s : string) : bool :=
  match v with
  | Some (JStr t) => String.eqb t s
  | _ => false
  end.

(** [sub in s] on strings *)
Fixpoint contains (sub s : string) : bool :=
  String.prefix sub s ||
  match s with
  | EmptyString => false
  | String _ s' => contains sub s'
  end.

(** [s.replace(old, new)]: every occurrence of [old] is replaced, scanning
    from the left, occurrences do not overlap; [skip] counts the
    characters of a replaced occurrence that are still to be passed. With
    an empty [old], [new] is put before every character and at the end. *)
Fixpoint replace_from (old new : string) (skip : nat) (s : string) : string :=
  match s with
  | EmptyString =>
      match skip, old with
      | O, EmptyString => new
      | _, _ => EmptyString
      end
  | String c s' =>
      match skip with
      | S skip' => replace_from old new skip' s'
      | O =>
          if String.prefix old s then
            match old with
            | EmptyString => new +:+ String c (replace_from old new 0 s')
            | String _ old' =>
                new +:+ replace_from old new (String.length old') s'
            end
          else String c (replace_from old new 0 s')
      end
  end.

Definition replace (old new s : string) : string := replace_from old new 0 s.

(** [a / b] on integers *)
Definition truediv (a b : Z) : result Q :=
  if b =? 0 then Raise ZeroDivisionError
  else Return (inject_Z a / inject_Z b)%Q.

(** The longest sleep in whole seconds: [time.sleep] first converts its
    argument to nanoseconds held in a signed 64-bit integer. *)
Definition sleep_max : Z := (2 ^ 63 - 1) / 10 ^ 9.

(** [time.sleep(secs)] on a clock counted in seconds: a length whose
    nanoseconds do not fit 64 bits raises OverflowError, a negative length
    raises ValueError, otherwise the clock advances by the length. These
    are the checks of the interpreter; what an operating system does with
    a sleep that the interpreter accepts is outside the model. *)
Definition sleep (secs now : Z) : result Z :=
  if sleep_max <? Z.abs secs then Raise OverflowError
  else if secs <? 0 then Raise ValueError
  else Return (now + secs).

End Py.
Import Py.

(** * src/health_check_script.py *)
Module HealthCheck.

(** What one GET of the health URL can produce. [body] is what
    [response.json()] makes of the body: the decoded document, or the
    exception it raises: requests' JSONDecodeError for a text that is not
    JSON, ValueError for an integer literal of more than 4300 digits,
    RecursionError for a nesting deeper than the recursion limit. *)
Inductive http_outcome : Type :=
  | TransportFailure
  | Response (status_code : Z) (body : result json).

(** One request as the environment plays it: its outcome and the time it
    takes (the request is issued with a 5 second transport timeout). *)
Record probe : Type := { outcome : http_outcome; latency : Z }.

Definition requests_get (o : http_outcome) : result (Z * result json) :=
  match o with
  | TransportFailure => Raise RequestException
  | Response code body => Return (code, body)
  end.

Definition response_json (body : result json) : result json := body.

(** HealthChecker.check_health *)
Definition check_health (o : http_outcome) : result (bool * option json) :=
  except_RequestException
    (response ← requests_get o;
     if fst response =? 200 then
       data ← response_json (snd response);
       Return (true, Some data)
     else Return (false, None))
    (Return (false, None)).

(** The least magnitude that does not convert to a double: the midpoint
    between the largest double and 2^1024, which rounds up. *)
Definition float_limit : Z := 2 ^ 1024 - 2 ^ 970.

(** [float(x)] can be formed: a number of magnitude [float_limit] or more
    can only be a Python int (json reads a float literal that large as
    inf), and its conversion raises OverflowError. *)
Definition fits_float (x : Q) : bool :=
  negb (Qle_bool (inject_Z float_limit) x) &&
  negb (Qle_bool x (inject_Z (- float_limit))).

(** The [:.2f] format of [data.get('uptime', 0)]: an int or a bool is
    converted to a float first; a string has no such format code, None, a
    list and a dict have no format codes at all. *)
Definition format_2f (v : json) : result unit :=
  match v with
  | JNum x => if fits_float x then Return tt else Raise OverflowError
  | JBool _ => Return tt
  | JStr _ => Raise ValueError
  | _ => Raise TypeError
  end.

(** HealthChecker.print_health_data; only what can make it raise is kept,
    the log lines themselves are dropped. *)
Definition print_health_data (data : option json) : result unit :=
  match data with
  | None => Return tt
  | Some d =>
      if negb (truthy d) then Return tt
      else
        _ ← json_get "status" d;
        _ ← json_get "timestamp" d;
        uptime ← json_get "uptime" d;
        _ ← format_2f (default (JNum 0) uptime);
        _ ← json_get "environment" d;
        _ ← json_get "version" d;
        Return tt
  end.

(** The final state of a poll loop: its result, the clock when it ended and
    the attempt counter. *)
Record ended : Type := { value : result bool; clock : Z; count : Z }.

(** The [while True] loop of HealthChecker.wait_for_healthy.  [probes] are
    the successive requests of the environment, [attempts] and [now] the
    loop variables and the clock on entry of an iteration. *)
Fixpoint wait_loop (timeout interval start : Z) (probes : list probe)
    (attempts now : Z) : option ended :=
  let attempts := attempts + 1 in
  let elapsed := now - start in
  if timeout <? elapsed then
    Some {| value := Return false; clock := now; count := attempts |}
  else
    match probes with
    | [] => None
    | p :: probes' =>
        let now := now + latency p in
        match check_health (outcome p) with
        | Raise e => Some {| value := Raise e; clock := now; count := attempts |}
        | Return (true, data) =>
            Some {| value := (_ ← print_health_data data; Return true);
                    clock := now; count := attempts |}
        | Return (false, _) =>
            match sleep interval now with
            | Raise e =>
                Some {| value := Raise e; clock := now; count := attempts |}
            | Return now' =>
                wait_loop timeout interval start probes' attempts now'
            end
        end
    end.

(** HealthChecker.wait_for_healthy; [start] is the first reading of the
    clock. *)
Definition wait_for_healthy (timeout interval : Z) (probes : list probe)
    (start : Z) : option ended :=
  wait_loop timeout interval start probes 0 start.

(** The counters of continuous_monitoring when its loop is left. *)
Record tally : Type := { check_count : Z; failed_checks : Z; finish : Z }.

(** The [while time.time() - start_time < duration] loop of
    HealthChecker.continuous_monitoring. *)
Fixpoint monitoring_loop (duration interval start : Z) (probes : list probe)
    (checks failed now : Z) : option (result tally) :=
  if now - start <? duration then
    match probes with
    | [] => None
    | p :: probes' =>
        let checks := checks + 1 in
        let now := now + latency p in
        match check_health (outcome p) with
        | Raise e => Some (Raise e)
        | Return (healthy, _) =>
            let failed := if negb healthy then failed + 1 else failed in
            match sleep interval now with
            | Raise e => Some (Raise e)
            | Return now' =>
                monitoring_loop duration interval start probes'
                  checks failed now'
            end
        end
    end
  else
    Some (Return {| check_count := checks; failed_checks := failed;
                    finish := now |}).

(** The summary of continuous_monitoring:
    [success_rate = ((check_count - failed_checks) / check_count) * 100]
    and [return success_rate >= 95]. The rate is computed exactly; the
    source computes it in double precision. *)
Definition monitoring_summary (t : tally) : result bool :=
  ratio ← truediv (check_count t - failed_checks t) (check_count t);
  let success_rate := (ratio * inject_Z 100)%Q in
  Return (Qle_bool (inject_Z 95) success_rate).

(** HealthChecker.continuous_monitoring *)
Definition continuous_monitoring (duration interval : Z)
    (probes : list probe) (start : Z) : option (result bool) :=
  match monitoring_loop duration interval start probes 0 0 start with
  | None => None
  | Some r => Some (t ← r; monitoring_summary t)
  end.

(** HealthChecker.check_metrics_endpoint; [fetch] is what a GET of a URL
    yields when the metrics are checked. The body is only counted in the
    log line. *)
Definition check_metrics_endpoint (url : string)
    (fetch : string → http_outcome) : result bool :=
  let metrics_url := replace "/health" "/metrics" url in
  except_RequestException
    (response ← requests_get (fetch metrics_url);
     if fst response =? 200 then Return true else Return false)
    (Return false).

(** [if args.continuous]: the option is given and is not zero. *)
Definition continuous_mode (continuous : option Z) : option Z :=
  match continuous with
  | Some duration => if duration =? 0 then None else Some duration
  | None => None
  end.

(** The exit status for an outcome inside the [try] of main:
    [sys.exit(0 if success else 1)], and [sys.exit(1)] from the handler of
    Exception. *)
Definition exit_of (r : result bool) : Z :=
  match r with
  | Return true => 0
  | _ => 1
  end.

(** main, from the construction of the HealthChecker on; the value is the
    exit status. The handler of KeyboardInterrupt is left out. *)
Definition main (url : string) (timeout interval : Z)
    (continuous : option Z) (check_metrics : bool)
    (probes : list probe) (fetch : string → http_outcome) (start : Z)
  : option Z :=
  match continuous_mode continuous with
  | Some duration =>
      match continuous_monitoring duration interval probes start with
      | None => None
      | Some success => Some (exit_of success)
      end
  | None =>
      match wait_for_healthy timeout interval probes start with
      | None => None
      | Some e =>
          Some (exit_of
                  (success ← value e;
                   _ ← (if success && check_metrics
                        then _ ← check_metrics_endpoint url fetch; Return tt
                        else Return tt);
                   Return success))
      end
  end.

End HealthCheck.

(** * The cloud services as the scripts see them *)
Module Aws.

(** The boot script sent as UserData (base64 text in the source): the
    template of DeploymentManager._generate_user_data or the shorter one of
    RollbackManager.create_rollback_version, rendered with an image and an
    environment. *)
Inductive user_data : Type :=
  | DeployScript (image environment : string)
  | RollbackScript (image : json) (environment : string).

(** The service calls that the scripts make, with the arguments they pass. *)
Inductive api_call : Type :=
  | DescribeAutoScalingGroups (name : string)
  | CreateLaunchTemplateVersion (lt_id : string) (data : user_data)
  | UpdateAutoScalingGroup (name lt_id : string) (version : Z)
  | StartInstanceRefresh (name : string) (min_healthy warmup : Z)
  | DescribeInstanceRefreshes (name refresh_id : string)
  | DescribeTargetHealth (target_group_arn : string)
  | DescribeLaunchTemplateVersions (lt_id : string) (max_results : Z)
  | ListObjectsV2 (bucket prefix : string) (max_keys : Z)
  | GetObject (bucket key : string)
  | PutObject (bucket key : string) (body : json).

(** The bytes of a stored object: the text of a JSON document, as
    [json.dumps] writes it and [json.loads] reads it back, or anything
    else. *)
Inductive s3_body : Type :=
  | JsonText (j : json)
  | OtherBytes.

(** An entry of response['Contents'] of list_objects_v2. *)
Record s3_summary : Type := { Key : string; LastModified : Z }.

(** An entry of response['InstanceRefreshes']. *)
Record instance_refresh : Type :=
  { Status : string; PercentageComplete : option Z }.

(** An entry of response['AutoScalingGroups']; [LaunchTemplateId = None]
    is a group without a launch template. *)
Record auto_scaling_group : Type := { LaunchTemplateId : option string }.

(** An entry of response['LaunchTemplateVersions']. *)
Record launch_template_version : Type :=
  { VersionNumber : Z; UserData : option string }.

(** What the services answer during one run. The answers to the polls are
    scripts, consumed one per call, and are part of the state below. *)
Record cloud : Type := {
  auto_scaling_groups : result (list auto_scaling_group);
  created_version : result Z;
  update_outcome : result unit;
  refresh_started : result string;
  template_versions : result (list launch_template_version);
  put_outcome : result unit;
  list_objects_v2 :
    gmap (string * string) s3_body → string → string → Z →
    result (option (list s3_summary));
  isoformat_now : nat → string
}.

(** The state a run works on: the object store, keyed by bucket and key,
    the calls made so far (latest first), the remaining answers to the
    refresh and target-health polls, the number of readings of
    [datetime.now()] taken, and the time slept. *)
Record world : Type := {
  s3 : gmap (string * string) s3_body;
  calls : list api_call;
  refresh_polls : list (result (list instance_refresh));
  health_polls : list (result (list string));
  clock_reads : nat;
  slept : Z
}.

(** State, exceptions and the end of a script. *)
Definition M (A : Type) : Type := world → option (result A * world).

#[global] Instance M_ret : MRet M := λ _ a w, Some (Return a, w).
#[global] Instance M_bind : MBind M := λ _ _ k m w,
  match m w with
  | None => None
  | Some (Return a, w') => k a w'
  | Some (Raise e, w') => Some (Raise e, w')
  end.

Definition lift {A} (r : result A) : M A := λ w, Some (r, w).

(** [try: body  except Exception as e: handler]; every class of [exn]
    derives from Exception. *)
Definition try_except {A} (body : M A) (handler : exn → M A) : M A := λ w,
  match body w with
  | None => None
  | Some (Return a, w') => Some (Return a, w')
  | Some (Raise e, w') => handler e w'
  end.

Definition record_call (c : api_call) : M unit := λ w,
  Some (Return tt,
        {| s3 := s3 w; calls := c :: calls w;
           refresh_polls := refresh_polls w; health_polls := health_polls w;
           clock_reads := clock_reads w; slept := slept w |}).

(** A service call: it is recorded, then answers. *)
Definition service {A} (c : api_call) (answer : result A) : M A :=
  _ ← record_call c; lift answer.

Definition time_sleep (secs : Z) : M unit := λ w,
  Some (Return tt,
        {| s3 := s3 w; calls := calls w;
           refresh_polls := refresh_polls w; health_polls := health_polls w;
           clock_reads := clock_reads w; slept := slept w + secs |}).

(** [datetime.now().isoformat()] *)
Definition datetime_now (c : cloud) : M string := λ w,
  Some (Return (isoformat_now c (clock_reads w)),
        {| s3 := s3 w; calls := calls w;
           refresh_polls := refresh_polls w; health_polls := health_polls w;
           clock_reads := S (clock_reads w); slept := slept w |}).

(** s3.put_object: unconditional; when the store accepts the write the
    object under the key is the new one, whatever was there. *)
Definition put_object (c : cloud) (bucket key : string) (body : json)
  : M unit := λ w,
  let w' := {| s3 := match put_outcome c with
                     | Return _ => <[(bucket, key) := JsonText body]> (s3 w)
                     | Raise _ => s3 w
                     end;
               calls := PutObject bucket key body :: calls w;
               refresh_polls := refresh_polls w;
               health_polls := health_polls w;
               clock_reads := clock_reads w; slept := slept w |} in
  Some (put_outcome c, w').

(** s3.get_object followed by [response['Body'].read()] *)
Definition get_object (bucket key : string) : M s3_body := λ w,
  service (GetObject bucket key)
    (match s3 w !! (bucket, key) with
     | Some body => Return body
     | None => Raise ClientError
     end) w.

Definition json_loads (body : s3_body) : result json :=
  match body with
  | JsonText j => Return j
  | OtherBytes => Raise ValueError
  end.

(** The keys of a bucket that start with a prefix, in ascending order of
    their bytes. *)
Definition keys_under (store : gmap (string * string) s3_body)
    (bucket prefix : string) : list string :=
  merge_sort String.le
    (omap (λ entry : (string * string) * s3_body,
             if String.eqb (fst (fst entry)) bucket
                && String.prefix prefix (snd (fst entry))
             then Some (snd (fst entry)) else None)
          (map_to_list store)).

(** s3.list_objects_v2 as the service answers it over a store: the keys
    under the prefix in ascending order of the key, cut after [max_keys] of
    them (and after 1000 at most), each with the time of its last write
    ([modified]); 'Contents' is absent when no key is left. *)
Definition s3_list_objects_v2 (modified : string → Z)
    (store : gmap (string * string) s3_body) (bucket prefix : string)
    (max_keys : Z) : result (option (list s3_summary)) :=
  match take (Z.to_nat (Z.min max_keys 1000))
             (keys_under store bucket prefix) with
  | [] => Return None
  | page =>
      Return (Some ((λ key, {| Key := key; LastModified := modified key |})
                    <$> page))
  end.

(** autoscaling.describe_instance_refreshes: the next answer of the script. *)
Definition describe_instance_refreshes (name refresh_id : string)
  : M (list instance_refresh) := λ w,
  match refresh_polls w with
  | [] => None
  | answer :: rest =>
      Some (answer,
            {| s3 := s3 w;
               calls := DescribeInstanceRefreshes name refresh_id :: calls w;
               refresh_polls := rest; health_polls := health_polls w;
               clock_reads := clock_reads w; slept := slept w |})
  end.

(** elbv2.describe_target_health: the next answer of the script, the
    health states of the registered targets. *)
Definition describe_target_health (arn : string) : M (list string) := λ w,
  match health_polls w with
  | [] => None
  | answer :: rest =>
      Some (answer,
            {| s3 := s3 w; calls := DescribeTargetHealth arn :: calls w;
               refresh_polls := refresh_polls w; health_polls := rest;
               clock_reads := clock_reads w; slept := slept w |})
  end.

End Aws.
Import Aws.

(** * src/deploy_script.py *)
Module Deploy.
Section DeploymentManager.
Context (aws : cloud) (environment : string).

(** DeploymentManager.get_asg_name *)
Definition get_asg_name : string := environment +:+ "-asg".

(** [asg['LaunchTemplate']['LaunchTemplateId']] *)
Definition launch_template_id (asg : auto_scaling_group) : result string :=
  match LaunchTemplateId asg with
  | Some lt_id => Return lt_id
  | None => Raise KeyError
  end.

(** DeploymentManager.update_launch_template *)
Definition update_launch_template (image : string) : M bool :=
  let asg_name := get_asg_name in
  groups ← service (DescribeAutoScalingGroups asg_name)
             (auto_scaling_groups aws);
  match groups with
  | [] => mret false
  | asg :: _ =>
      lt_id ← lift (launch_template_id asg);
      let user_data := DeployScript image environment in
      new_version ← service (CreateLaunchTemplateVersion lt_id user_data)
                      (created_version aws);
      _ ← service (UpdateAutoScalingGroup asg_name lt_id new_version)
            (update_outcome aws);
      mret true
  end.

(** The [while True] loop of DeploymentManager.monitor_refresh; [polls]
    bounds the iterations by the answers that are left in the script. *)
Fixpoint monitor_loop (polls : nat) (asg_name refresh_id : string) : M bool :=
  match polls with
  | O => λ _, None
  | S polls' =>
      refreshes ← describe_instance_refreshes asg_name refresh_id;
      match refreshes with
      | [] => mret false
      | refresh :: _ =>
          let status := Status refresh in
          if String.eqb status "Successful" then mret true
          else if String.eqb status "Cancelled" || String.eqb status "Failed"
          then mret false
          else
            _ ← time_sleep 30;
            monitor_loop polls' asg_name refresh_id
      end
  end.

(** DeploymentManager.monitor_refresh *)
Definition monitor_refresh (asg_name refresh_id : string) : M bool := λ w,
  monitor_loop (length (refresh_polls w)) asg_name refresh_id w.

(** DeploymentManager.rolling_deployment *)
Definition rolling_deployment (image : string) : M bool :=
  updated ← update_launch_template image;
  if negb updated then mret false
  else
    let asg_name := get_asg_name in
    refresh_id ← service (StartInstanceRefresh asg_name 50 300)
                   (refresh_started aws);
    monitor_refresh asg_name refresh_id.

(** [healthy == total and total > 0] on one answer of describe_target_health *)
Definition all_targets_healthy (states : list string) : bool :=
  let total := Z.of_nat (length states) in
  let healthy :=
    Z.of_nat (length (filter (λ state, state = "healthy") states)) in
  (healthy =? total) && (0 <? total).

(** The [for attempt in range(max_attempts)] loop of
    DeploymentManager.verify_deployment over the attempts that are left. *)
Fixpoint verify_loop (max_attempts : Z) (attempts : list Z)
    (target_group_arn : string) : M bool :=
  match attempts with
  | [] => mret false
  | attempt :: attempts' =>
      states ← describe_target_health target_group_arn;
      if all_targets_healthy states then mret true
      else
        _ ← (if attempt <? max_attempts - 1 then time_sleep 15 else mret tt);
        verify_loop max_attempts attempts' target_group_arn
  end.

(** DeploymentManager.verify_deployment *)
Definition verify_deployment (target_group_arn : string) : M bool :=
  let max_attempts := 20 in
  verify_loop max_attempts (seqZ 0 max_attempts) target_group_arn.

(** The document that create_deployment_record writes. *)
Definition deployment_record (timestamp version image status : string)
  : json :=
  JObj [("timestamp", JStr timestamp); ("environment", JStr environment);
        ("version", JStr version); ("image", JStr image);
        ("status", JStr status)].

(** DeploymentManager.create_deployment_record; the clock is read once for
    the key and once more for the record. *)
Definition create_deployment_record (version image status : string)
  : M unit :=
  let bucket := environment +:+ "-devops-artifacts" in
  key_time ← datetime_now aws;
  let key := "deployments/" +:+ key_time +:+ ".json" in
  timestamp ← datetime_now aws;
  let record := deployment_record timestamp version image status in
  put_object aws bucket key record.

(** main, from the construction of the DeploymentManager on; the value is
    the exit status passed to [sys.exit] (SystemExit is not an Exception and
    passes the handler); an exception raised by the handler itself is not
    caught. *)
Definition main (version image : string) : M Z :=
  try_except
    (success ← rolling_deployment image;
     if success : bool then
       _ ← create_deployment_record version image "success";
       mret 0
     else
       _ ← create_deployment_record version image "failed";
       mret 1)
    (λ _,
       _ ← create_deployment_record version image "error";
       mret 1).

End DeploymentManager.
End Deploy.

(** * src/rollback_script.py *)
Module Rollback.

(** [sorted(contents, key=lambda x: x['LastModified'], reverse=True)]:
    Python's sort is stable, also in reverse, so entries with equal keys
    keep their order. *)
Fixpoint insert_newest_first (x : s3_summary) (l : list s3_summary)
  : list s3_summary :=
  match l with
  | [] => [x]
  | y :: l' =>
      if LastModified y <=? LastModified x then x :: y :: l'
      else y :: insert_newest_first x l'
  end.

Definition sorted_newest_first (contents : list s3_summary)
  : list s3_summary :=
  foldr insert_newest_first [] contents.

(** [target_image in user_data]: the left operand must be a string. *)
Definition py_in (x : json) (s : string) : result bool :=
  match x with
  | JStr sub => Return (contains sub s)
  | _ => Raise TypeError
  end.

(** RollbackManager.find_matching_launch_template *)
Fixpoint find_matching_launch_template
    (versions : list launch_template_version) (target_image : json)
  : result (option Z) :=
  match versions with
  | [] => Return None
  | version :: versions' =>
      let user_data := default "" (UserData version) in
      found ← py_in target_image user_data;
      if found : bool then Return (Some (VersionNumber version))
      else find_matching_launch_template versions' target_image
  end.

(** The scan of find_previous_successful_deployment over the history; the
    three items are read for the log lines. *)
Fixpoint first_successful (history : list json) : result (option json) :=
  match history with
  | [] => Return None
  | deployment :: history' =>
      status ← json_get "status" deployment;
      if json_eq_str status "success" then
        _ ← json_item "version" deployment;
        _ ← json_item "image" deployment;
        _ ← json_item "timestamp" deployment;
        Return (Some deployment)
      else first_successful history'
  end.

Section RollbackManager.
Context (aws : cloud) (environment : string).

(** The [for obj in objects] loop of get_deployment_history: an object that
    cannot be fetched or decoded is skipped. *)
Fixpoint read_objects (bucket : string) (objects : list s3_summary)
  : M (list json) :=
  match objects with
  | [] => mret []
  | obj :: objects' =>
      read ← try_except
                (body ← get_object bucket (Key obj);
                 data ← lift (json_loads body);
                 mret (Some data))
                (λ _, mret None);
      deployments ← read_objects bucket objects';
      mret (option_list read ++ deployments)
  end.

(** RollbackManager.get_deployment_history *)
Definition get_deployment_history (limit : Z) : M (list json) :=
  let bucket := environment +:+ "-devops-artifacts" in
  let prefix := "deployments/" in
  try_except
    (response ← (λ w, service (ListObjectsV2 bucket prefix limit)
                        (list_objects_v2 aws (s3 w) bucket prefix limit) w);
     match response with
     | None => mret []
     | Some contents =>
         let objects := sorted_newest_first contents in
         read_objects bucket objects
     end)
    (λ _, mret []).

(** RollbackManager.find_previous_successful_deployment *)
Definition find_previous_successful_deployment : M (option json) :=
  history ← get_deployment_history 20;
  lift (first_successful history).

(** RollbackManager.get_launch_template_versions *)
Definition get_launch_template_versions (lt_id : string)
  : M (list launch_template_version) :=
  service (DescribeLaunchTemplateVersions lt_id 100) (template_versions aws).

(** RollbackManager.create_rollback_version *)
Definition create_rollback_version (lt_id : string) (target_image : json)
  : M Z :=
  let user_data := RollbackScript target_image environment in
  service (CreateLaunchTemplateVersion lt_id user_data) (created_version aws).

(** The [while True] loop of RollbackManager.monitor_refresh. *)
Fixpoint monitor_loop (polls : nat) (asg_name refresh_id : string) : M bool :=
  match polls with
  | O => λ _, None
  | S polls' =>
      refreshes ← describe_instance_refreshes asg_name refresh_id;
      match refreshes with
      | [] => mret false
      | refresh :: _ =>
          let status := Status refresh in
          if String.eqb status "Successful" then mret true
          else if String.eqb status "Cancelled" || String.eqb status "Failed"
          then mret false
          else
            _ ← time_sleep 30;
            monitor_loop polls' asg_name refresh_id
      end
  end.

(** RollbackManager.monitor_refresh *)
Definition monitor_refresh (asg_name refresh_id : string) : M bool := λ w,
  monitor_loop (length (refresh_polls w)) asg_name refresh_id w.

(** The document that record_rollback writes. *)
Definition rollback_record (timestamp : string) (version image : json)
  : json :=
  JObj [("timestamp", JStr timestamp); ("environment", JStr environment);
        ("action", JStr "rollback"); ("target_version", version);
        ("target_image", image)].

(** RollbackManager.record_rollback *)
Definition record_rollback (version image : json) : M unit :=
  let bucket := environment +:+ "-devops-artifacts" in
  key_time ← datetime_now aws;
  let key := "rollbacks/" +:+ key_time +:+ ".json" in
  timestamp ← datetime_now aws;
  let record := rollback_record timestamp version image in
  put_object aws bucket key record.

(** The head of rollback_to_version: the target is the one given, or that
    of the latest successful deployment; [None] is the early
    [return False]. *)
Definition resolve_target (target_version target_image : json)
  : M (option (json * json)) :=
  if negb (truthy target_version) && negb (truthy target_image) then
    found ← find_previous_successful_deployment;
    match found with
    | None => mret None
    | Some deployment =>
        if negb (truthy deployment) then mret None
        else
          version ← lift (json_item "version" deployment);
          image ← lift (json_item "image" deployment);
          mret (Some (version, image))
    end
  else mret (Some (target_version, target_image)).

(** [if not target_lt_version] *)
Definition no_version (v : option Z) : bool :=
  match v with
  | None => true
  | Some n => n =? 0
  end.

(** RollbackManager.rollback_to_version *)
Definition rollback_to_version (target_version target_image : json)
  : M bool :=
  target ← resolve_target target_version target_image;
  match target with
  | None => mret false
  | Some (target_version, target_image) =>
      let asg_name := environment +:+ "-asg" in
      groups ← service (DescribeAutoScalingGroups asg_name)
                 (auto_scaling_groups aws);
      match groups with
      | [] => mret false
      | asg :: _ =>
          lt_id ← lift (Deploy.launch_template_id asg);
          lt_versions ← get_launch_template_versions lt_id;
          matching ← lift (find_matching_launch_template lt_versions
                             target_image);
          target_lt_version ←
            (if no_version matching
             then create_rollback_version lt_id target_image
             else mret (default 0 matching));
          _ ← service (UpdateAutoScalingGroup asg_name lt_id
                         target_lt_version) (update_outcome aws);
          refresh_id ← service (StartInstanceRefresh asg_name 50 300)
                         (refresh_started aws);
          success ← monitor_refresh asg_name refresh_id;
          _ ← (if success : bool
               then record_rollback target_version target_image
               else mret tt);
          mret success
      end
  end.

(** The arguments as argparse delivers them. *)
Definition arg_version (previous_version : option Z) : json :=
  match previous_version with
  | Some n => JNum (inject_Z n)
  | None => JNull
  end.

Definition arg_image (image : option string) : json :=
  match image with
  | Some s => JStr s
  | None => JNull
  end.

(** main, from the construction of the RollbackManager on; the value is the
    exit status. *)
Definition main (previous_version : option Z) (image : option string)
  : M Z :=
  try_except
    (success ← rollback_to_version (arg_version previous_version)
                 (arg_image image);
     mret (if success : bool then 0 else 1))
    (λ _, mret 1).

End RollbackManager.
End Rollback.

(** * Sample environments *)
Module Samples.

(** A cloud in which every call succeeds: one group with a launch template,
    an empty listing, and a clock that shows a new instant at each
    reading. *)
Definition calm : cloud := {|
  auto_scaling_groups := Return [{| LaunchTemplateId := Some "lt-0a1b" |}];
  created_version := Return 7;
  update_outcome := Return tt;
  refresh_started := Return "refresh-1";
  template_versions := Return [];
  put_outcome := Return tt;
  list_objects_v2 := λ _ _ _ _, Return None;
  isoformat_now := λ n,
    "2024-05-01T10:00:0" +:+ String (Ascii.ascii_of_nat (48 + n mod 10)) ""
|}.

(** The same cloud with a clock that stands still. *)
Definition frozen : cloud := {|
  auto_scaling_groups := auto_scaling_groups calm;
  created_version := created_version calm;
  update_outcome := update_outcome calm;
  refresh_started := refresh_started calm;
  template_versions := template_versions calm;
  put_outcome := put_outcome calm;
  list_objects_v2 := list_objects_v2 calm;
  isoformat_now := λ _, "2024-05-01T10:00:00"
|}.

(** A fresh run over an empty store with the given poll scripts. *)
Definition fresh (refreshes : list (result (list instance_refresh)))
    (healths : list (result (list string))) : world :=
  {| s3 := ∅; calls := []; refresh_polls := refreshes;
     health_polls := healths; clock_reads := 0; slept := 0 |}.

Definition refresh_in (status : string) : result (list instance_refresh) :=
  Return [{| Status := status; PercentageComplete := None |}].

(** A store with three deployment records of production: 1.0 and 2.0
    succeeded, the latest one, 3.0, failed. *)
Definition archive : gmap (string * string) s3_body :=
  list_to_map
    [(("production-devops-artifacts",
       "deployments/2024-04-01T09:00:00.json"),
      JsonText (Deploy.deployment_record "production" "2024-04-01T09:00:00"
                  "1.0" "app:1.0" "success"));
     (("production-devops-artifacts",
       "deployments/2024-04-08T09:00:00.json"),
      JsonText (Deploy.deployment_record "production" "2024-04-08T09:00:00"
                  "2.0" "app:2.0" "success"));
     (("production-devops-artifacts",
       "deployments/2024-04-15T09:00:00.json"),
      JsonText (Deploy.deployment_record "production" "2024-04-15T09:00:00"
                  "3.0" "app:3.0" "failed"))].

(** The calm cloud with a store that lists these three objects by key. *)
Definition archived : cloud := {|
  auto_scaling_groups := auto_scaling_groups calm;
  created_version := created_version calm;
  update_outcome := update_outcome calm;
  refresh_started := refresh_started calm;
  template_versions := template_versions calm;
  put_outcome := put_outcome calm;
  list_objects_v2 := λ _ _ _ _,
    Return (Some
      [{| Key := "deployments/2024-04-01T09:00:00.json";
          LastModified := 1711962000 |};
       {| Key := "deployments/2024-04-08T09:00:00.json";
          LastModified := 1712566800 |};
       {| Key := "deployments/2024-04-15T09:00:00.json";
          LastModified := 1713171600 |}]);
  isoformat_now := isoformat_now calm
|}.


(** The archived cloud whose launch template has one version, made for
    app:1.0. *)
Definition versioned : cloud := {|
  auto_scaling_groups := auto_scaling_groups calm;
  created_version := created_version calm;
  update_outcome := update_outcome calm;
  refresh_started := refresh_started calm;
  template_versions :=
    Return [{| VersionNumber := 3;
               UserData := Some "docker pull app:1.0" |}];
  put_outcome := put_outcome calm;
  list_objects_v2 := list_objects_v2 archived;
  isoformat_now := isoformat_now calm
|}.

(** A run over the archive with the given refresh script. *)
Definition rerun (refreshes : list (result (list instance_refresh)))
  : world :=
  {| s3 := archive; calls := []; refresh_polls := refreshes;
     health_polls := []; clock_reads := 0; slept := 0 |}.

(** Twenty-one deployments of production, one a day from 2024-06-01 on,
    each recorded as create_deployment_record does: the key is the
    timestamp of the deployment. The first and the last succeeded, the
    nineteen between them failed. *)
Definition two_digits (n : nat) : string :=
  String (Ascii.ascii_of_nat (48 + n / 10))
    (String (Ascii.ascii_of_nat (48 + n mod 10)) "").

Definition day_stamp (day : nat) : string :=
  "2024-06-" +:+ two_digits day +:+ "T09:00:00".

Definition day_key (day : nat) : string :=
  "deployments/" +:+ day_stamp day +:+ ".json".

Definition day_status (day : nat) : string :=
  if bool_decide (day = 1%nat ∨ day = 21%nat) then "success" else "failed".

Definition day_record (day : nat) : json :=
  Deploy.deployment_record "production" (day_stamp day)
    ("1." +:+ two_digits day) ("app:1." +:+ two_digits day)
    (day_status day).

Definition journal : gmap (string * string) s3_body :=
  list_to_map
    ((λ day, (("production-devops-artifacts", day_key day),
              JsonText (day_record day))) <$> seq 1 21).

(** The time of the last write of a key of the journal: its day. *)
Definition journal_modified (key : string) : Z :=
  foldr (λ day rest, if String.eqb key (day_key day) then Z.of_nat day
                     else rest) 0 (seq 1 21).

(** The calm cloud over a store that lists its keys as S3 does. *)
Definition journaled : cloud := {|
  auto_scaling_groups := auto_scaling_groups calm;
  created_version := created_version calm;
  update_outcome := update_outcome calm;
  refresh_started := refresh_started calm;
  template_versions := template_versions calm;
  put_outcome := put_outcome calm;
  list_objects_v2 := s3_list_objects_v2 journal_modified;
  isoformat_now := isoformat_now calm
|}.

(** A rollback run over the journal. *)
Definition replay : world :=
  {| s3 := journal; calls := []; refresh_polls := [];
     health_polls := []; clock_reads := 0; slept := 0 |}.

End Samples.

(** * Vocabulary of the properties *)

(** The three ways in which one poll fails: the transport fails, the status
    is not 200, or the body is not JSON (decoding it raises an exception of
    the requests library). *)
Definition poll_failed (o : HealthCheck.http_outcome) : bool :=
  match o with
  | HealthCheck.TransportFailure => true
  | HealthCheck.Response code body =>
      negb (code =? 200) ||
      match body with
      | Raise e => is_RequestException e
      | Return _ => false
      end
  end.

(** A call is silent when it neither writes an object nor asks for the
    health of the targets. *)
Definition silent (c : api_call) : bool :=
  match c with
  | PutObject _ _ _ | DescribeTargetHealth _ => false
  | _ => true
  end.

Definition asks_target_health (c : api_call) : bool :=
  match c with
  | DescribeTargetHealth _ => true
  | _ => false
  end.

(** [w'] comes from [w] by silent calls only. *)
Definition quiet_step (w w' : world) : Prop :=
  s3 w' = s3 w ∧ health_polls w' = health_polls w ∧
  clock_reads w' = clock_reads w ∧
  ∃ new, calls w' = new ++ calls w ∧ forallb silent new = true.

Definition quiet {A} (m : M A) : Prop :=
  ∀ w r w', m w = Some (r, w') → quiet_step w w'.

(** What one answer of describe_instance_refreshes means to
    monitor_refresh: its return value, or [None] to poll again. *)
Definition refresh_verdict (answer : list instance_refresh) : option bool :=
  match answer with
  | [] => Some false
  | refresh :: _ =>
      if String.eqb (Status refresh) "Successful" then Some true
      else if String.eqb (Status refresh) "Cancelled"
              || String.eqb (Status refresh) "Failed"
      then Some false
      else None
  end.

(** A poll after which monitor_refresh polls again. *)
Definition running (poll : result (list instance_refresh)) : Prop :=
  ∃ answer, poll = Return answer ∧ refresh_verdict answer = None.

(** The status that main records for an outcome of rolling_deployment, and
    the exit status that goes with it. *)
Definition recorded_status (outcome : result bool) : string :=
  match outcome with
  | Return true => "success"
  | Return false => "failed"
  | Raise _ => "error"
  end.

Definition exit_status (outcome : result bool) : Z :=
  match outcome with
  | Return true => 0
  | _ => 1
  end.

(** The document stored under the key of a listed object, when it can be
    fetched and decoded. *)
Definition document (store : gmap (string * string) s3_body)
    (bucket : string) (obj : s3_summary) : option json :=
  match store !! (bucket, Key obj) with
  | Some (JsonText j) => Some j
  | _ => None
  end.

(** [deployment.get('status') == 'success'] on a record. *)
Definition is_success (j : json) : bool :=
  match j with
  | JObj m => json_eq_str (dict_get "status" m) "success"
  | _ => false
  end.

(** A document shaped like a deployment record: an object with a version,
    an image and a timestamp. *)
Definition deployment_shaped (j : json) : bool :=
  match j with
  | JObj m =>
      bool_decide (is_Some (dict_get "version" m)) &&
      bool_decide (is_Some (dict_get "image" m)) &&
      bool_decide (is_Some (dict_get "timestamp" m))
  | _ => false
  end.

(** The objects that the store lists for the history query. *)
Definition listed (aws : cloud) (environment : string) (limit : Z)
    (w : world) : list s3_summary :=
  match list_objects_v2 aws (s3 w) (environment +:+ "-devops-artifacts")
          "deployments/" limit with
  | Return (Some contents) => contents
  | _ => []
  end.

(** Newest first: every object is at least as recent as those after it. *)
Definition newest_first (l : list s3_summary) : Prop :=
  StronglySorted (λ a b, LastModified b ≤ LastModified a) l.

(** The time that a run of polls takes when each is followed by a sleep of
    one interval. *)
Definition time_spent (interval : Z) (polls : list HealthCheck.probe) : Z :=
  foldr (λ p rest, HealthCheck.latency p + interval + rest) 0 polls.

(** The number of failed polls. *)
Definition failures (polls : list HealthCheck.probe) : Z :=
  Z.of_nat (length (filter (λ p, poll_failed (HealthCheck.outcome p) = true)
                      polls)).

(** A document that print_health_data can print: nothing to print, or an
    object whose uptime, when present, is a boolean or a number within the
    range of a double. *)
Definition printable (d : json) : bool :=
  negb (truthy d) ||
  match d with
  | JObj m =>
      match dict_get "uptime" m with
      | None | Some (JBool _) => true
      | Some (JNum x) => HealthCheck.fits_float x
      | _ => false
      end
  | _ => false
  end.

(** An occurrence of [old] in [base +:+ old] that starts inside [base]. *)
Fixpoint occurs_early (old base : string) : bool :=
  match base with
  | EmptyString => false
  | String _ base' =>
      String.prefix old (base +:+ old) || occurs_early old base'
  end.

(** The time verify_deployment sleeps over the given attempts: 15 seconds
    after each one but the last of [max_attempts]. *)
Definition pauses (max_attempts : Z) (attempts : list Z) : Z :=
  15 * Z.of_nat (length (filter (λ a, a < max_attempts - 1) attempts)).

(** A poll of the target health that does not show a healthy group. *)
Definition not_yet_healthy (poll : result (list string)) : Prop :=
  ∃ states, poll = Return states ∧ Deploy.all_targets_healthy states = false.

(** [target_image in user_data] for a version and an image text. *)
Definition mentions (image : string) (version : launch_template_version)
  : bool :=
  contains image (default "" (UserData version)).

(** * Properties of the health checker *)
Section HealthCheckFacts.
Import HealthCheck.

Lemma check_health_response code body :
  check_health (Response code body) =
  if code =? 200 then
    match body with
    | Return d => Return (true, Some d)
    | Raise e =>
        if is_RequestException e then Return (false, None) else Raise e
    end
  else Return (false, None).
Proof.
  unfold check_health, response_json; cbn.
  destruct (code =? 200); [|done].
  destruct body as [d|e]; cbn; [done|]. by destruct (is_RequestException e).
Qed.

Lemma check_health_unhealthy_iff o :
  check_health o = Return (false, None) ↔ poll_failed o = true.
Proof.
  destruct o as [|code body]; [done|].
  rewrite check_health_response; cbn.
  destruct (code =? 200); cbn; [|done].
  destruct body as [d|e]; cbn; [done|].
  by destruct (is_RequestException e).
Qed.

Lemma check_health_false o data :
  check_health o = Return (false, data) → poll_failed o = true.
Proof.
  destruct o as [|code body]; [done|].
  rewrite check_health_response; cbn.
  destruct (code =? 200); cbn; [|done].
  destruct body as [d|e]; cbn; [done|].
  by destruct (is_RequestException e).
Qed.

(** check_health lets an exception through only when it comes from the
    decoding of a 200 answer and is not one of the requests library. *)
Lemma check_health_raises o e :
  check_health o = Raise e ↔
  ∃ code, code = 200 ∧ o = Response code (Raise e) ∧
          is_RequestException e = false.
Proof.
  destruct o as [|code body].
  - split; [done|]. by intros (code & _ & [=] & _).
  - rewrite check_health_response.
    destruct (Z.eqb_spec code 200) as [->|Hcode].
    + destruct body as [d|e']; cbn.
      * split; [done|]. by intros (code & _ & [=] & _).
      * destruct (is_RequestException e') eqn:He.
        -- split; [done|]. intros (code & _ & [= _ <-] & He'). congruence.
        -- split.
           ++ intros [= ->]. by exists 200.
           ++ by intros (code & _ & [= _ ->] & _).
    + split; [done|]. intros (code' & -> & [= ->] & _). done.
Qed.


Lemma check_health_healthy o data :
  check_health o = Return (true, data) →
  ∃ d, o = Response 200 (Return d) ∧ data = Some d.
Proof.
  destruct o as [|code body]; [done|].
  rewrite check_health_response.
  destruct (code =? 200) eqn:E; [|done].
  destruct body as [d|e]; [|by destruct (is_RequestException e)].
  intros [= <-]. apply Z.eqb_eq in E as ->. eauto.
Qed.


Lemma sleep_returns interval now now' :
  sleep interval now = Return now' →
  0 ≤ interval ≤ sleep_max ∧ now' = now + interval.
Proof.
  unfold sleep.
  destruct (Z.ltb_spec sleep_max (Z.abs interval)); [done|].
  destruct (Z.ltb_spec interval 0); [done|]. intros [= <-]. lia.
Qed.

Lemma time_spent_cons interval p polls :
  time_spent interval (p :: polls)
  = latency p + interval + time_spent interval polls.
Proof. reflexivity. Qed.

Lemma failures_cons p polls :
  failures (p :: polls)
  = (if poll_failed (outcome p) then 1 else 0) + failures polls.
Proof.
  unfold failures. rewrite filter_cons.
  destruct (poll_failed (outcome p)) eqn:E.
  - rewrite decide_True by done. cbn [length]. lia.
  - rewrite decide_False by done. lia.
Qed.










(** The rate test of the summary, on integers. *)
Lemma success_rate_test (a c : Z) :
  0 < c →
  Qle_bool (inject_Z 95) (inject_Z a / inject_Z c * inject_Z 100)%Q =
  bool_decide (95 * c ≤ 100 * a).
Proof.
  intros Hc. destruct c as [|c|c]; try lia.
  apply eq_true_iff_eq. rewrite Qle_bool_iff, bool_decide_eq_true.
  unfold Qle, Qdiv, Qmult, Qinv, inject_Z; cbn.
  rewrite !Pos.mul_1_r, !Z.mul_1_r. lia.
Qed.


Lemma monitoring_summary_positive t :
  0 < check_count t →
  monitoring_summary t =
  Return (bool_decide
            (95 * check_count t ≤ 100 * (check_count t - failed_checks t))).
Proof.
  intros H. unfold monitoring_summary, truediv.
  destruct (Z.eqb_spec (check_count t) 0); [lia|]. cbn.
  by rewrite success_rate_test.
Qed.


(** The monitoring loop when it is left: the polls it has made are the
    first [n] of the script, where [n] is the first number of polls whose
    time covers the duration; it has counted each of them, and as failed
    those that failed. *)
Lemma monitoring_loop_polls duration interval start probes :
  ∀ checks failed now t,
    monitoring_loop duration interval start probes checks failed now
      = Some (Return t) →
    ∃ n, (n ≤ length probes)%nat ∧
         check_count t = checks + Z.of_nat n ∧
         failed_checks t = failed + failures (take n probes) ∧
         finish t = now + time_spent interval (take n probes) ∧
         duration ≤ finish t - start ∧
         (∀ k, (k < n)%nat →
               now - start + time_spent interval (take k probes) < duration).
Proof.
  induction probes as [|p probes IH]; intros checks failed now t;
    cbn [monitoring_loop].
  - destruct (Z.ltb_spec (now - start) duration); [done|]. intros [= <-].
    exists 0%nat. cbn. unfold failures. cbn. repeat split; lia.
  - destruct (Z.ltb_spec (now - start) duration) as [Hin|Hout].
    + destruct (check_health (outcome p)) as [[healthy data]|] eqn:Hc;
        [|done].
      destruct (sleep interval (now + latency p)) as [now'|] eqn:Hs; [|done].
      apply sleep_returns in Hs as [_ ->].
      intros (n & Hn & Hcount & Hfailed & Hfinish & Hend & Hmin)%IH.
      exists (S n). cbn [take length].
      rewrite time_spent_cons, failures_cons.
      split; [lia|]. split; [lia|]. split; [|split; [lia|split; [lia|]]].
      * rewrite Hfailed. destruct healthy; cbn.
        -- destruct (poll_failed (outcome p)) eqn:Hf; [|lia].
           apply check_health_unhealthy_iff in Hf. congruence.
        -- apply check_health_false in Hc as ->. lia.
      * intros [|k] Hk; cbn [take]; [cbn; lia|].
        rewrite time_spent_cons. specialize (Hmin k ltac:(lia)). lia.
    + intros [= <-]. exists 0%nat. cbn. unfold failures. cbn.
      repeat split; lia.
Qed.





End HealthCheckFacts.

(** * Runs that leave the records and the target group alone *)

Section Quiet.

Lemma quiet_step_refl w : quiet_step w w.
Proof. repeat split. by exists []. Qed.

Lemma quiet_step_trans w1 w2 w3 :
  quiet_step w1 w2 → quiet_step w2 w3 → quiet_step w1 w3.
Proof.
  intros (Hs & Hh & Hc & new1 & Hn1 & Hq1) (Hs' & Hh' & Hc' & new2 & Hn2 & Hq2).
  repeat split; try congruence.
  exists (new2 ++ new1). rewrite Hn2, Hn1, app_assoc. split; [done|].
  rewrite forallb_app. by rewrite Hq1, Hq2.
Qed.

(** How a sequence of two steps has run. *)
Lemma bind_run {A B} (m : M A) (k : A → M B) w r w' :
  (m ≫= k) w = Some (r, w') →
  (∃ e, m w = Some (Raise e, w') ∧ r = Raise e) ∨
  (∃ a w1, m w = Some (Return a, w1) ∧ k a w1 = Some (r, w')).
Proof.
  unfold mbind, M_bind. destruct (m w) as [[[a|e] w1]|]; [| |done].
  - right; eauto.
  - intros [= <- <-]. left; eauto.
Qed.

Lemma try_except_run {A} (body : M A) (handler : exn → M A) w r w' :
  try_except body handler w = Some (r, w') →
  (∃ a, body w = Some (Return a, w') ∧ r = Return a) ∨
  (∃ e w1, body w = Some (Raise e, w1) ∧ handler e w1 = Some (r, w')).
Proof.
  unfold try_except. destruct (body w) as [[[a|e] w1]|]; [| |done].
  - intros [= <- <-]. left; eauto.
  - right; eauto.
Qed.

Lemma quiet_ret {A} (a : A) : quiet (mret a).
Proof. intros w r w' [= <- <-]. apply quiet_step_refl. Qed.

Lemma quiet_lift {A} (r : result A) : quiet (lift r).
Proof. intros w r' w' [= <- <-]. apply quiet_step_refl. Qed.

Lemma quiet_bind {A B} (m : M A) (k : A → M B) :
  quiet m → (∀ a, quiet (k a)) → quiet (m ≫= k).
Proof.
  intros Hm Hk w r w' Hrun.
  apply bind_run in Hrun as [(e & Hrun & _)|(a & w1 & Hrun & Hrest)].
  - by eapply Hm.
  - eapply quiet_step_trans; [by eapply Hm|by eapply Hk].
Qed.

Lemma quiet_try_except {A} (body : M A) (handler : exn → M A) :
  quiet body → (∀ e, quiet (handler e)) → quiet (try_except body handler).
Proof.
  intros Hb Hh w r w' Hrun.
  apply try_except_run in Hrun as [(a & Hrun & _)|(e & w1 & Hrun & Hrest)].
  - by eapply Hb.
  - eapply quiet_step_trans; [by eapply Hb|by eapply Hh].
Qed.

Lemma quiet_service {A} (c : api_call) (answer : result A) :
  silent c = true → quiet (service c answer).
Proof.
  intros Hc w r w' [= <- <-]. repeat split; cbn.
  exists [c]. cbn. by rewrite Hc.
Qed.

Lemma quiet_time_sleep secs : quiet (time_sleep secs).
Proof. intros w r w' [= <- <-]. repeat split. by exists []. Qed.

Lemma quiet_describe_instance_refreshes name refresh_id :
  quiet (describe_instance_refreshes name refresh_id).
Proof.
  intros w r w'. unfold describe_instance_refreshes.
  destruct (refresh_polls w); [done|]. intros [= <- <-]. repeat split.
  by exists [DescribeInstanceRefreshes name refresh_id].
Qed.

Lemma quiet_get_object bucket key : quiet (get_object bucket key).
Proof. intros w r w'. unfold get_object. by apply quiet_service. Qed.

End Quiet.

(** * Properties of the deployment manager *)

Section DeployFacts.
Context (aws : cloud) (environment : string).

(** The two scripts carry the same monitoring loop. *)
Lemma rollback_monitor_loop_same n name refresh_id w :
  Rollback.monitor_loop n name refresh_id w
  = Deploy.monitor_loop n name refresh_id w.
Proof. reflexivity. Qed.

Lemma rollback_monitor_refresh_same name refresh_id w :
  Rollback.monitor_refresh name refresh_id w
  = Deploy.monitor_refresh name refresh_id w.
Proof. apply rollback_monitor_loop_same. Qed.

(** The monitoring loop polls through the running answers and returns the
    verdict of the first other answer, with the rest of the script left. *)
Lemma monitor_loop_verdict name refresh_id answer rest b :
  refresh_verdict answer = Some b →
  ∀ pre n w,
    Forall running pre →
    refresh_polls w = pre ++ Return answer :: rest →
    (length pre < n)%nat →
    ∃ w', Deploy.monitor_loop n name refresh_id w = Some (Return b, w') ∧
          refresh_polls w' = rest ∧ quiet_step w w'.
Proof.
  intros Hverdict pre. induction pre as [|poll pre IH];
    intros n w Hpre Hpolls Hn; (destruct n as [|n]; [cbn in Hn; lia|]).
  - cbn in *. unfold mbind, M_bind, describe_instance_refreshes.
    rewrite Hpolls. destruct answer as [|refresh more]; cbn in Hverdict.
    + injection Hverdict as <-. eexists; split; [done|]. cbn.
      repeat split. by exists [DescribeInstanceRefreshes name refresh_id].
    + destruct (String.eqb (Status refresh) "Successful");
        [|destruct (String.eqb (Status refresh) "Cancelled"
                    || String.eqb (Status refresh) "Failed"); [|done]];
        injection Hverdict as <-; (eexists; split; [done|]); cbn;
        repeat split; by exists [DescribeInstanceRefreshes name refresh_id].
  - apply Forall_cons in Hpre as [(running_answer & -> & Hrun) Hpre].
    cbn in *. unfold mbind, M_bind, describe_instance_refreshes.
    rewrite Hpolls. destruct running_answer as [|refresh more]; [done|].
    cbn in Hrun.
    destruct (String.eqb (Status refresh) "Successful"); [done|].
    destruct (String.eqb (Status refresh) "Cancelled"
              || String.eqb (Status refresh) "Failed"); [done|].
    cbn. edestruct (IH n) as (w' & Hloop & Hrest & Hquiet);
      [done| |lia|]; [|exists w'; split; [exact Hloop|]; split; [done|]].
    + done.
    + eapply quiet_step_trans; [|exact Hquiet]. repeat split; cbn.
      by exists [DescribeInstanceRefreshes name refresh_id].
Qed.

Lemma monitor_refresh_verdict name refresh_id pre answer rest b w :
  Forall running pre →
  refresh_polls w = pre ++ Return answer :: rest →
  refresh_verdict answer = Some b →
  ∃ w', Deploy.monitor_refresh name refresh_id w = Some (Return b, w') ∧
        refresh_polls w' = rest ∧ quiet_step w w'.
Proof.
  intros Hpre Hpolls Hverdict. unfold Deploy.monitor_refresh.
  eapply monitor_loop_verdict; eauto.
  rewrite Hpolls, length_app. cbn. lia.
Qed.

(** Conversely, a value returned by the monitoring loop is the verdict of
    the first answer that is not a running one. *)
Lemma monitor_loop_returned name refresh_id b :
  ∀ n w w',
    Deploy.monitor_loop n name refresh_id w = Some (Return b, w') →
    ∃ pre answer,
      refresh_polls w = pre ++ Return answer :: refresh_polls w' ∧
      Forall running pre ∧ refresh_verdict answer = Some b.
Proof.
  induction n as [|n IH]; intros w w'; [done|]. cbn.
  unfold mbind at 1, M_bind at 1, describe_instance_refreshes.
  destruct (refresh_polls w) as [|[answer|e] rest] eqn:Hpolls; try done.
  destruct answer as [|refresh more].
  { intros [= <- <-]. by exists [], []. }
  destruct (String.eqb (Status refresh) "Successful") eqn:Hs.
  { intros [= <- <-]. exists [], (refresh :: more). cbn. by rewrite Hs. }
  destruct (String.eqb (Status refresh) "Cancelled"
            || String.eqb (Status refresh) "Failed") eqn:Hf.
  { intros [= <- <-]. exists [], (refresh :: more). cbn. by rewrite Hs, Hf. }
  cbn. intros Hrun. apply IH in Hrun as (pre & answer & Hrest & Hpre & Hv).
  cbn in Hrest. exists (Return (refresh :: more) :: pre), answer.
  split; [by rewrite Hrest|]. split; [|done].
  constructor; [|done]. eexists; split; [done|]. cbn. by rewrite Hs, Hf.
Qed.

Lemma all_targets_healthy_iff states :
  Deploy.all_targets_healthy states = true ↔
  length (filter (λ state, state = "healthy") states) = length states ∧
  (0 < length states)%nat.
Proof.
  unfold Deploy.all_targets_healthy.
  rewrite andb_true_iff, Z.eqb_eq, Z.ltb_lt. lia.
Qed.

(** The verification loop succeeds only on a fully healthy, non-empty
    answer, found among the first [length attempts] answers. *)
Lemma verify_loop_success max_attempts arn attempts :
  ∀ w w',
    Deploy.verify_loop max_attempts attempts arn w = Some (Return true, w') →
    ∃ k states,
      (k < length attempts)%nat ∧
      health_polls w !! k = Some (Return states) ∧
      Deploy.all_targets_healthy states = true ∧
      health_polls w' = drop (S k) (health_polls w).
Proof.
  induction attempts as [|attempt attempts IH]; intros w w'; cbn.
  - unfold mret, M_ret. intros [= ]. 
  - unfold mbind, M_bind, describe_target_health at 1.
    destruct (health_polls w) as [|[states|e] rest] eqn:Hpolls; try done.
    destruct (Deploy.all_targets_healthy states) eqn:Hall.
    + unfold mret, M_ret. intros [= <-]. exists 0%nat, states. cbn.
      repeat split; try done; lia.
    + destruct (attempt <? max_attempts - 1); cbn; intros Hrun;
        apply IH in Hrun as (k & states' & Hk & Hlook & Hok & Hrest);
        exists (S k), states'; cbn in *; repeat split; try done; lia.
Qed.

(** C8. verify_deployment returns True only on one of its (at most 20)
    polls whose answer lists at least one target and in which every target
    is healthy: the count of healthy targets equals the total and the total
    is above zero. An answer with no targets never gives success. *)
Theorem verify_deployment_success arn w w' :
  Deploy.verify_deployment arn w = Some (Return true, w') →
  ∃ k states,
    (k < 20)%nat ∧
    health_polls w !! k = Some (Return states) ∧
    length (filter (λ state, state = "healthy") states) = length states ∧
    (0 < length states)%nat ∧
    health_polls w' = drop (S k) (health_polls w).
Proof.
  unfold Deploy.verify_deployment. intros Hrun.
  apply verify_loop_success in Hrun as (k & states & Hk & Hlook & Hok & Hrest).
  apply all_targets_healthy_iff in Hok as [Hall Hpos].
  exists k, states. by rewrite length_seqZ in Hk.
Qed.

(** The verification loop gives up: when none of the first answers is fully
    healthy, one poll is made per attempt and the result is False. *)
Lemma verify_loop_gives_up max_attempts arn attempts :
  ∀ w,
    (length attempts ≤ length (health_polls w))%nat →
    Forall (λ poll, ∃ states, poll = Return states ∧
                              Deploy.all_targets_healthy states = false)
      (take (length attempts) (health_polls w)) →
    ∃ w', Deploy.verify_loop max_attempts attempts arn w
            = Some (Return false, w') ∧
          health_polls w' = drop (length attempts) (health_polls w).
Proof.
  induction attempts as [|attempt attempts IH]; intros w Hlen Hall; cbn.
  - by eexists.
  - unfold mbind at 1, M_bind at 1, describe_target_health.
    destruct (health_polls w) as [|poll rest] eqn:Hpolls; cbn in *; [lia|].
    apply Forall_cons in Hall as [(states & -> & Hbad) Hall].
    rewrite Hbad.
    destruct (attempt <? max_attempts - 1);
      unfold mbind, M_bind, time_sleep, mret, M_ret; cbn;
      apply IH; cbn; (lia || done).
Qed.

Lemma verify_deployment_gives_up arn w :
  (20 ≤ length (health_polls w))%nat →
  Forall (λ poll, ∃ states, poll = Return states ∧
                            Deploy.all_targets_healthy states = false)
    (take 20 (health_polls w)) →
  ∃ w', Deploy.verify_deployment arn w = Some (Return false, w') ∧
        health_polls w' = drop 20 (health_polls w).
Proof.
  intros Hlen Hall. unfold Deploy.verify_deployment.
  pose proof (verify_loop_gives_up 20 arn (seqZ 0 20) w) as Hloop.
  rewrite length_seqZ in Hloop. by apply Hloop.
Qed.

(** A target group without targets is never healthy. *)
Lemma empty_group_is_not_healthy : Deploy.all_targets_healthy [] = false.
Proof. reflexivity. Qed.

(** C4, as the code has it. When a poll of monitor_refresh returns no
    refresh for the id, the function stops polling at once and returns
    False, in the deploy script and in the rollback script alike; a
    refresh that ends Failed or Cancelled gives the very same False, so
    the value tells the caller nothing about which of the two happened. *)
Theorem refresh_not_found_returns_false name refresh_id pre rest w :
  Forall running pre →
  refresh_polls w = pre ++ Return [] :: rest →
  ∃ w',
    Deploy.monitor_refresh name refresh_id w = Some (Return false, w') ∧
    Rollback.monitor_refresh name refresh_id w = Some (Return false, w') ∧
    refresh_polls w' = rest ∧
    ∀ refresh more w2,
      Status refresh = "Failed" ∨ Status refresh = "Cancelled" →
      refresh_polls w2 = pre ++ Return (refresh :: more) :: rest →
      ∃ w2',
        Deploy.monitor_refresh name refresh_id w2
          = Some (Return false, w2') ∧
        Rollback.monitor_refresh name refresh_id w2
          = Some (Return false, w2') ∧
        refresh_polls w2' = rest.
Proof.
  intros Hpre Hpolls.
  destruct (monitor_refresh_verdict name refresh_id pre [] rest false w)
    as (w' & Hrun & Hrest & _); [done..|].
  exists w'. split; [done|]. split; [done|]. split; [done|].
  intros refresh more w2 Hstatus Hpolls2.
  destruct (monitor_refresh_verdict name refresh_id pre (refresh :: more)
              rest false w2) as (w2' & Hrun2 & Hrest2 & _); [done..| |].
  - cbn. by destruct Hstatus as [-> | ->].
  - by exists w2'.
Qed.

(** C4, as the specification states it, fails: a vanished refresh and a failed one
    give the caller the same return value. *)
Lemma refresh_not_found_not_distinguished :
  fst <$> Deploy.monitor_refresh "dev-asg" "refresh-1"
            (Samples.fresh [Return []] [])
  = fst <$> Deploy.monitor_refresh "dev-asg" "refresh-1"
              (Samples.fresh [Samples.refresh_in "Failed"] []) ∧
  fst <$> Rollback.monitor_refresh "dev-asg" "refresh-1"
            (Samples.fresh [Return []] [])
  = fst <$> Rollback.monitor_refresh "dev-asg" "refresh-1"
              (Samples.fresh [Samples.refresh_in "Cancelled"] []).
Proof. split; reflexivity. Qed.

Lemma refresh_not_found_returns_false_witness :
  ∃ w',
    Deploy.monitor_refresh "dev-asg" "refresh-1"
      (Samples.fresh [Samples.refresh_in "InProgress"; Return []] [])
      = Some (Return false, w') ∧
    refresh_polls w' = [].
Proof.
  destruct (refresh_not_found_returns_false "dev-asg" "refresh-1"
              [Samples.refresh_in "InProgress"] []
              (Samples.fresh [Samples.refresh_in "InProgress"; Return []] []))
    as (w' & Hrun & _ & Hrest & _).
  - repeat constructor. by eexists.
  - reflexivity.
  - by exists w'.
Defined.

(** What one call of create_deployment_record does. *)
Lemma create_deployment_record_run version image status w :
  let bucket := environment +:+ "-devops-artifacts" in
  let key :=
    "deployments/" +:+ isoformat_now aws (clock_reads w) +:+ ".json" in
  let record :=
    Deploy.deployment_record environment
      (isoformat_now aws (S (clock_reads w))) version image status in
  Deploy.create_deployment_record aws environment version image status w =
  Some (put_outcome aws,
        {| s3 := match put_outcome aws with
                 | Return _ => <[(bucket, key) := JsonText record]> (s3 w)
                 | Raise _ => s3 w
                 end;
           calls := PutObject bucket key record :: calls w;
           refresh_polls := refresh_polls w;
           health_polls := health_polls w;
           clock_reads := S (S (clock_reads w)); slept := slept w |}).
Proof. reflexivity. Qed.

(** What one call of record_rollback does. *)
Lemma record_rollback_run version image w :
  let bucket := environment +:+ "-devops-artifacts" in
  let key :=
    "rollbacks/" +:+ isoformat_now aws (clock_reads w) +:+ ".json" in
  let record :=
    Rollback.rollback_record environment
      (isoformat_now aws (S (clock_reads w))) version image in
  Rollback.record_rollback aws environment version image w =
  Some (put_outcome aws,
        {| s3 := match put_outcome aws with
                 | Return _ => <[(bucket, key) := JsonText record]> (s3 w)
                 | Raise _ => s3 w
                 end;
           calls := PutObject bucket key record :: calls w;
           refresh_polls := refresh_polls w;
           health_polls := health_polls w;
           clock_reads := S (S (clock_reads w)); slept := slept w |}).
Proof. reflexivity. Qed.

(** C6, as the code has it. Both record writers put their document under
    the key made from the current clock reading, without looking at what
    the store holds: when the store accepts the write, the key holds the
    new document afterwards, whatever it held before (a second write under
    the same key replaces the first), and every other key is untouched. *)
Theorem record_write_replaces version image status target_version
    target_image w :
  put_outcome aws = Return tt →
  let bucket := environment +:+ "-devops-artifacts" in
  let now := isoformat_now aws (clock_reads w) in
  let later := isoformat_now aws (S (clock_reads w)) in
  (∃ w',
     Deploy.create_deployment_record aws environment version image status w
       = Some (Return tt, w') ∧
     s3 w' !! (bucket, "deployments/" +:+ now +:+ ".json")
       = Some (JsonText (Deploy.deployment_record environment later
                           version image status)) ∧
     ∀ k, k ≠ (bucket, "deployments/" +:+ now +:+ ".json") →
          s3 w' !! k = s3 w !! k) ∧
  (∃ w',
     Rollback.record_rollback aws environment target_version target_image w
       = Some (Return tt, w') ∧
     s3 w' !! (bucket, "rollbacks/" +:+ now +:+ ".json")
       = Some (JsonText (Rollback.rollback_record environment later
                           target_version target_image)) ∧
     ∀ k, k ≠ (bucket, "rollbacks/" +:+ now +:+ ".json") →
          s3 w' !! k = s3 w !! k).
Proof.
  intros Hput bucket now later. split.
  - rewrite create_deployment_record_run, Hput. eexists; split; [done|].
    cbn. split; [apply lookup_insert_eq|].
    intros k Hk. by apply lookup_insert_ne.
  - rewrite record_rollback_run, Hput. eexists; split; [done|].
    cbn. split; [apply lookup_insert_eq|].
    intros k Hk. by apply lookup_insert_ne.
Qed.

End DeployFacts.

(** C6, as the specification states it, fails: two records written at the same clock
    reading share their key, the second write is accepted, and the record
    under the key is replaced by a different one. *)
Lemma second_write_overwrites :
  let key := ("dev-devops-artifacts",
              "deployments/2024-05-01T10:00:00.json") in
  ∃ w1 w2 first second,
    Deploy.create_deployment_record Samples.frozen "dev" "1.0" "app:1.0"
      "failed" (Samples.fresh [] []) = Some (Return tt, w1) ∧
    Deploy.create_deployment_record Samples.frozen "dev" "1.0" "app:1.0"
      "success" w1 = Some (Return tt, w2) ∧
    s3 w1 !! key = Some (JsonText first) ∧
    s3 w2 !! key = Some (JsonText second) ∧
    first ≠ second.
Proof.
  do 4 eexists.
  split; [rewrite create_deployment_record_run; reflexivity|].
  split; [rewrite create_deployment_record_run; reflexivity|].
  split; [vm_compute; reflexivity|]. split; [vm_compute; reflexivity|].
  discriminate.
Qed.

Lemma record_write_replaces_witness :
  ∃ w',
    Deploy.create_deployment_record Samples.calm "dev" "1.0" "app:1.0"
      "success" (Samples.fresh [] []) = Some (Return tt, w') ∧
    s3 w' !! ("dev-devops-artifacts",
              "deployments/2024-05-01T10:00:00.json")
      = Some (JsonText (Deploy.deployment_record "dev"
                          "2024-05-01T10:00:01" "1.0" "app:1.0" "success")).
Proof.
  destruct (record_write_replaces Samples.calm "dev" "1.0" "app:1.0"
              "success" JNull JNull (Samples.fresh [] []) eq_refl)
    as [(w' & Hrun & Hkey & _) _].
  exists w'. split; [exact Hrun|exact Hkey].
Defined.

(** * Whole runs of the deploy script *)
Section DeployRuns.
Context (aws : cloud) (environment : string).

Lemma quiet_monitor_loop n name refresh_id :
  quiet (Deploy.monitor_loop n name refresh_id).
Proof.
  induction n as [|n IH]; [done|]. cbn.
  apply quiet_bind; [apply quiet_describe_instance_refreshes|].
  intros [|refresh more]; [apply quiet_ret|].
  destruct (String.eqb (Status refresh) "Successful"); [apply quiet_ret|].
  destruct (String.eqb (Status refresh) "Cancelled"
            || String.eqb (Status refresh) "Failed"); [apply quiet_ret|].
  apply quiet_bind; [apply quiet_time_sleep|done].
Qed.

Lemma quiet_monitor_refresh name refresh_id :
  quiet (Deploy.monitor_refresh name refresh_id).
Proof. intros w r w'. apply quiet_monitor_loop. Qed.

Lemma quiet_update_launch_template image :
  quiet (Deploy.update_launch_template aws environment image).
Proof.
  unfold Deploy.update_launch_template.
  apply quiet_bind; [by apply quiet_service|].
  intros [|asg groups]; [apply quiet_ret|].
  apply quiet_bind; [apply quiet_lift|]. intros lt_id.
  apply quiet_bind; [by apply quiet_service|]. intros new_version.
  apply quiet_bind; [by apply quiet_service|]. intros _. apply quiet_ret.
Qed.

(** rolling_deployment writes no record and never asks for the health of
    the targets. *)
Lemma quiet_rolling_deployment image :
  quiet (Deploy.rolling_deployment aws environment image).
Proof.
  unfold Deploy.rolling_deployment.
  apply quiet_bind; [apply quiet_update_launch_template|].
  intros [|]; cbn; [|apply quiet_ret].
  apply quiet_bind; [by apply quiet_service|]. intros refresh_id.
  apply quiet_monitor_refresh.
Qed.

(** rolling_deployment returns True only when the refresh was seen to end
    Successful. *)
Lemma rolling_deployment_success image w w1 :
  Deploy.rolling_deployment aws environment image w
    = Some (Return true, w1) →
  ∃ pre refresh more,
    refresh_polls w = pre ++ Return (refresh :: more) :: refresh_polls w1 ∧
    Forall running pre ∧ Status refresh = "Successful".
Proof.
  unfold Deploy.rolling_deployment.
  intros [(e & _ & [=])|(updated & w2 & Hupdate & Hrest)]%bind_run.
  destruct updated; cbn in Hrest; [|done].
  apply bind_run in Hrest as [(e & _ & [=])|(refresh_id & w3 & Hstart & Hmon)].
  assert (refresh_polls w3 = refresh_polls w) as Hsame.
  { injection Hstart as _ <-. cbn.
    unfold Deploy.update_launch_template in Hupdate.
    apply bind_run in Hupdate as [(e & _ & [=])|(groups & w4 & Hg & Hupdate)].
    injection Hg as _ <-. destruct groups as [|asg groups]; [done|].
    apply bind_run in Hupdate as [(e & _ & [=])|(lt_id & w5 & Hl & Hupdate)].
    injection Hl as _ <-.
    apply bind_run in Hupdate as [(e & _ & [=])|(v & w6 & Hv & Hupdate)].
    injection Hv as _ <-.
    apply bind_run in Hupdate as [(e & _ & [=])|([] & w7 & Hu & Hupdate)].
    injection Hu as _ <-. by injection Hupdate as <-. }
  apply monitor_loop_returned in Hmon as (pre & answer & Hpolls & Hpre & Hv).
  rewrite Hsame in Hpolls. destruct answer as [|refresh more]; [done|].
  exists pre, refresh, more. split; [done|]. split; [done|].
  cbn in Hv. destruct (String.eqb_spec (Status refresh) "Successful"); [done|].
  by destruct (String.eqb (Status refresh) "Cancelled"
               || String.eqb (Status refresh) "Failed").
Qed.

(** Every run of the deploy script that ends, with a store that accepts
    writes: rolling_deployment runs quietly, then exactly one record is
    written, with the status of the outcome, and the exit status is 0
    exactly for the outcome True. *)
Lemma deploy_main_run version image w r w' :
  put_outcome aws = Return tt →
  Deploy.main aws environment version image w = Some (r, w') →
  ∃ outcome w1,
    Deploy.rolling_deployment aws environment image w = Some (outcome, w1) ∧
    quiet_step w w1 ∧
    Deploy.create_deployment_record aws environment version image
      (recorded_status outcome) w1 = Some (Return tt, w') ∧
    r = Return (exit_status outcome).
Proof.
  intros Hput Hrun. unfold Deploy.main in Hrun.
  apply try_except_run in Hrun
    as [(code & Hbody & ->)|(e & w2 & Hbody & Hhandler)].
  - apply bind_run in Hbody as [(e & _ & [=])|(success & w1 & Hroll & Hrec)].
    exists (Return success), w1. split; [done|].
    split; [by eapply quiet_rolling_deployment|].
    destruct success; cbn;
      apply bind_run in Hrec as [(e & _ & [=])|([] & w2 & Hrec & [= <- <-])];
      done.
  - apply bind_run in Hbody as [(e' & Hroll & [= <-])|(success & w1 & _ & Hrec)].
    + exists (Raise e), w2. split; [done|].
      split; [by eapply quiet_rolling_deployment|].
      apply bind_run in Hhandler
        as [(e' & Hrec & _)|([] & w3 & Hrec & [= <- <-])]; [|done].
      rewrite create_deployment_record_run, Hput in Hrec. done.
    + destruct success;
        apply bind_run in Hrec as [(e' & Hrec & _)|(? & ? & _ & [=])];
        rewrite create_deployment_record_run, Hput in Hrec; done.
Qed.

(** In particular no run of the deploy script polls the target group: the
    script of health answers is left as it was, and no call of
    describe_target_health is among the calls made. *)
Lemma deploy_main_skips_verification version image w r w' :
  put_outcome aws = Return tt →
  Deploy.main aws environment version image w = Some (r, w') →
  health_polls w' = health_polls w ∧
  ∃ new, calls w' = new ++ calls w ∧
         ∀ arn, DescribeTargetHealth arn ∉ new.
Proof.
  intros Hput Hrun.
  apply deploy_main_run in Hrun
    as (outcome & w1 & _ & (_ & Hh & _ & new & Hnew & Hsilent) & Hrec & _);
    [|done].
  rewrite create_deployment_record_run, Hput in Hrec.
  injection Hrec as <-. cbn. split; [done|].
  eexists (_ :: new). rewrite Hnew. split; [reflexivity|].
  intros arn [[=]|Hin]%elem_of_cons.
  rewrite forallb_forall in Hsilent.
  by specialize (Hsilent _ (proj1 (list_elem_of_In _ _) Hin)).
Qed.

End DeployRuns.

(** C1, on the code. A deploy run whose refresh ends Successful while the
    target group never becomes healthy: main exits with status 0 and
    stores a record with status success, without one poll of the target
    group (the script of health answers is untouched); verify_deployment,
    run on the same state, returns False. *)
Theorem deploy_succeeds_unverified :
  let w := Samples.fresh [Samples.refresh_in "Successful"]
             (replicate 20 (Return ["healthy"; "unhealthy"; "unhealthy"])) in
  ∃ w',
    Deploy.main Samples.calm "production" "2.0" "app:2.0" w
      = Some (Return 0, w') ∧
    s3 w' !! ("production-devops-artifacts",
              "deployments/2024-05-01T10:00:00.json")
      = Some (JsonText (Deploy.deployment_record "production"
                          "2024-05-01T10:00:01" "2.0" "app:2.0" "success")) ∧
    health_polls w' = health_polls w ∧
    existsb asks_target_health (calls w') = false ∧
    fst <$> Deploy.verify_deployment "production-tg" w = Some (Return false).
Proof.
  eexists. split; [vm_compute; reflexivity|].
  split; [vm_compute; reflexivity|]. split; [reflexivity|].
  split; vm_compute; reflexivity.
Qed.

(** C2, on the code. A rollback whose refresh ends Failed, and one whose
    refresh poll raises: main exits with status 1 and no record is
    written, the store is as it was; the deploy script in the same two
    situations writes its one record. *)
Theorem rollback_failure_leaves_no_record :
  let failed := Samples.fresh [Samples.refresh_in "Failed"] [] in
  let faulty := Samples.fresh [Raise ClientError] [] in
  (∃ w',
     Rollback.main Samples.calm "production" None (Some "app:1.0") failed
       = Some (Return 1, w') ∧
     s3 w' = s3 failed ∧ forallb silent (calls w') = true) ∧
  (∃ w',
     Rollback.main Samples.calm "production" None (Some "app:1.0") faulty
       = Some (Return 1, w') ∧
     s3 w' = s3 faulty ∧ forallb silent (calls w') = true) ∧
  (∃ w',
     Deploy.main Samples.calm "production" "2.0" "app:2.0" failed
       = Some (Return 1, w') ∧
     s3 w' !! ("production-devops-artifacts",
               "deployments/2024-05-01T10:00:00.json")
       = Some (JsonText (Deploy.deployment_record "production"
                           "2024-05-01T10:00:01" "2.0" "app:2.0"
                           "failed"))) ∧
  (∃ w',
     Deploy.main Samples.calm "production" "2.0" "app:2.0" faulty
       = Some (Return 1, w') ∧
     s3 w' !! ("production-devops-artifacts",
               "deployments/2024-05-01T10:00:00.json")
       = Some (JsonText (Deploy.deployment_record "production"
                           "2024-05-01T10:00:01" "2.0" "app:2.0"
                           "error"))).
Proof.
  repeat split; eexists; (split; [vm_compute; reflexivity|]);
    try split; vm_compute; reflexivity.
Qed.

(** * Properties of the rollback manager *)

Section Sorting.

Lemma insert_newest_first_perm x l :
  Rollback.insert_newest_first x l ≡ₚ x :: l.
Proof.
  induction l as [|y l IH]; cbn; [done|].
  destruct (LastModified y <=? LastModified x); [done|].
  rewrite IH. apply Permutation_swap.
Qed.

Lemma sorted_newest_first_perm l : Rollback.sorted_newest_first l ≡ₚ l.
Proof.
  induction l as [|x l IH]; cbn; [done|].
  by rewrite insert_newest_first_perm, IH.
Qed.

Lemma insert_newest_first_sorted x l :
  newest_first l → newest_first (Rollback.insert_newest_first x l).
Proof.
  unfold newest_first. induction 1 as [|y l Hsorted IH Hy]; cbn.
  - repeat constructor.
  - destruct (Z.leb_spec (LastModified y) (LastModified x)).
    + constructor; [by constructor|]. constructor; [done|].
      eapply Forall_impl; [exact Hy|]. cbn. intros z Hz. lia.
    + constructor; [done|].
      rewrite insert_newest_first_perm. constructor; [lia|done].
Qed.

Lemma sorted_newest_first_sorted l :
  newest_first (Rollback.sorted_newest_first l).
Proof.
  induction l as [|x l IH]; cbn; [constructor|].
  by apply insert_newest_first_sorted.
Qed.

End Sorting.

Section RollbackFacts.
Context (aws : cloud) (environment : string).

(** The scan returns the first successful record of a history of
    deployment-shaped documents, in the order of the history. *)
Lemma first_successful_find history :
  Forall (λ j, deployment_shaped j = true) history →
  Rollback.first_successful history = Return (List.find is_success history).
Proof.
  induction 1 as [|j history Hj _ IH]; cbn; [done|].
  destruct j as [| | | | |m]; try done. cbn in *.
  destruct (json_eq_str (dict_get "status" m) "success"); [|done].
  apply andb_prop in Hj as [[Hv Hi]%andb_prop Ht].
  apply bool_decide_eq_true in Hv as [? ->], Hi as [? ->], Ht as [? ->].
  done.
Qed.

(** Whatever the history, a record that the scan returns has status
    success. *)
Lemma first_successful_status history d :
  Rollback.first_successful history = Return (Some d) →
  json_get "status" d = Return (Some (JStr "success")).
Proof.
  induction history as [|j history IH]; cbn; [done|].
  destruct j as [| | | | |m]; try done. cbn.
  destruct (dict_get "status" m) as [[| | |s| |]|] eqn:Hs; cbn; try done.
  destruct (String.eqb_spec s "success") as [->|]; [|done].
  destruct (dict_get "version" m), (dict_get "image" m),
    (dict_get "timestamp" m); cbn; try done.
  intros [= <-]. cbn. by rewrite Hs.
Qed.

(** The loop over the listed objects delivers the documents that can be
    read, in the order of the list, and is quiet. *)
Lemma read_objects_run bucket objects :
  ∀ w, ∃ w',
    Rollback.read_objects bucket objects w
      = Some (Return (omap (document (s3 w) bucket) objects), w') ∧
    quiet_step w w'.
Proof.
  induction objects as [|obj objects IH]; intros w; cbn.
  - eexists; split; [done|apply quiet_step_refl].
  - unfold mbind at 1, M_bind at 1, try_except, mbind at 1, M_bind at 1.
    unfold get_object, service, mbind at 1, M_bind at 1, record_call, lift.
    unfold document at 1.
    set (w1 := {| s3 := s3 w; calls := GetObject bucket (Key obj) :: calls w;
                  refresh_polls := refresh_polls w;
                  health_polls := health_polls w;
                  clock_reads := clock_reads w; slept := slept w |}).
    assert (quiet_step w w1) as Hq1.
    { repeat split. by exists [GetObject bucket (Key obj)]. }
    destruct (IH w1) as (w' & Hrest & Hq).
    destruct (s3 w !! (bucket, Key obj)) as [[j|]|]; cbn;
      unfold mbind, M_bind, mret, M_ret; cbn; rewrite Hrest; cbn;
      (eexists; split; [done|by eapply quiet_step_trans]).
Qed.

(** get_deployment_history never raises: it delivers the readable
    documents of the listed objects, newest first. *)
Lemma get_deployment_history_run limit w :
  ∃ w',
    Rollback.get_deployment_history aws environment limit w
      = Some (Return
                (omap (document (s3 w) (environment +:+ "-devops-artifacts"))
                   (Rollback.sorted_newest_first
                      (listed aws environment limit w))), w') ∧
    quiet_step w w'.
Proof.
  unfold Rollback.get_deployment_history, listed, try_except.
  unfold mbind, M_bind, service, mbind, M_bind, record_call, lift.
  set (bucket := environment +:+ "-devops-artifacts").
  set (w1 := {| s3 := s3 w;
                calls := ListObjectsV2 bucket "deployments/" limit :: calls w;
                refresh_polls := refresh_polls w;
                health_polls := health_polls w;
                clock_reads := clock_reads w; slept := slept w |}).
  assert (quiet_step w w1) as Hq1.
  { repeat split. by exists [ListObjectsV2 bucket "deployments/" limit]. }
  destruct (list_objects_v2 aws (s3 w) bucket "deployments/" limit)
    as [[contents|]|e]; cbn.
  - destruct (read_objects_run bucket
                (Rollback.sorted_newest_first contents) w1)
      as (w' & -> & Hq).
    eexists; split; [done|by eapply quiet_step_trans].
  - by eexists.
  - by eexists.
Qed.

(** In a list of objects that is newest first, the first successful
    document belongs to the newest object that holds one. *)
Lemma find_success_newest store bucket objects :
  newest_first objects →
  match List.find is_success (omap (document store bucket) objects) with
  | Some d =>
      ∃ obj, obj ∈ objects ∧ document store bucket obj = Some d ∧
             is_success d = true ∧
             ∀ obj' d', obj' ∈ objects →
                        LastModified obj < LastModified obj' →
                        document store bucket obj' = Some d' →
                        is_success d' = false
  | None =>
      ∀ obj d', obj ∈ objects → document store bucket obj = Some d' →
                is_success d' = false
  end.
Proof.
  unfold newest_first. induction 1 as [|x objects Hsorted IH Hx]; cbn.
  - intros obj d' Hin. by apply elem_of_nil in Hin.
  - destruct (document store bucket x) as [j|] eqn:Hdoc; cbn;
      [destruct (is_success j) eqn:Hj|].
    + exists x. split; [left|]. repeat split; try done.
      intros obj' d' [->|Hin]%elem_of_cons Hnewer; [lia|].
      rewrite Forall_forall in Hx. specialize (Hx _ Hin). lia.
    + destruct (List.find is_success (omap (document store bucket) objects)).
      * destruct IH as (obj & Hin & Hobj & Hd & Hnewest).
        exists obj. split; [by right|]. repeat split; try done.
        intros obj' d' [->|Hin']%elem_of_cons Hnewer Hdoc'; [congruence|].
        by eapply Hnewest.
      * intros obj d' [->|Hin]%elem_of_cons Hdoc'; [congruence|].
        by eapply IH.
    + destruct (List.find is_success (omap (document store bucket) objects)).
      * destruct IH as (obj & Hin & Hobj & Hd & Hnewest).
        exists obj. split; [by right|]. repeat split; try done.
        intros obj' d' [->|Hin']%elem_of_cons Hnewer Hdoc'; [congruence|].
        by eapply Hnewest.
      * intros obj d' [->|Hin]%elem_of_cons Hdoc'; [congruence|].
        by eapply IH.
Qed.

(** X28. Of the objects that the store lists for the history query (made
    with MaxKeys=20), find_previous_successful_deployment returns, over
    deployment-shaped documents, the document of the newest listed object
    that holds a successful record: the listed objects are put newest first
    by their modification time, read and scanned in that order, and every
    listed object that is strictly newer holds no successful record. It
    returns None, and raises nothing, when no listed object holds a
    successful record. Which objects are listed is the store's answer. *)
Theorem find_previous_successful_deployment_newest w :
  let bucket := environment +:+ "-devops-artifacts" in
  let window := listed aws environment 20 w in
  let history :=
    omap (document (s3 w) bucket) (Rollback.sorted_newest_first window) in
  Forall (λ j, deployment_shaped j = true) history →
  ∃ w',
    Rollback.find_previous_successful_deployment aws environment w
      = Some (Return (List.find is_success history), w') ∧
    quiet_step w w' ∧
    newest_first (Rollback.sorted_newest_first window) ∧
    match List.find is_success history with
    | Some d =>
        ∃ obj, obj ∈ window ∧ document (s3 w) bucket obj = Some d ∧
               is_success d = true ∧
               ∀ obj' d', obj' ∈ window →
                          LastModified obj < LastModified obj' →
                          document (s3 w) bucket obj' = Some d' →
                          is_success d' = false
    | None =>
        ∀ obj d', obj ∈ window → document (s3 w) bucket obj = Some d' →
                  is_success d' = false
    end.
Proof.
  intros bucket window history Hshaped.
  unfold Rollback.find_previous_successful_deployment.
  destruct (get_deployment_history_run 20 w) as (w' & Hrun & Hq).
  exists w'. split.
  { unfold mbind, M_bind. rewrite Hrun. fold bucket window history.
    unfold lift. by rewrite first_successful_find. }
  split; [done|]. split; [apply sorted_newest_first_sorted|].
  pose proof (find_success_newest (s3 w) bucket
                (Rollback.sorted_newest_first window)
                (sorted_newest_first_sorted window)) as Hfind.
  fold history in Hfind.
  destruct (List.find is_success history) as [d|].
  - destruct Hfind as (obj & Hin & Hdoc & Hd & Hnewest).
    rewrite sorted_newest_first_perm in Hin.
    exists obj. repeat split; try done.
    intros obj' d' Hin'. apply Hnewest.
    by rewrite sorted_newest_first_perm.
  - intros obj d' Hin. apply Hfind. by rewrite sorted_newest_first_perm.
Qed.

(** C9. A record that find_previous_successful_deployment returns has
    status success, whatever the history holds; and when neither a version
    nor an image is given, the target that rollback_to_version resolves is
    the version and the image of such a record. *)
Theorem rollback_target_is_successful :
  (∀ w w' d,
     Rollback.find_previous_successful_deployment aws environment w
       = Some (Return (Some d), w') →
     json_get "status" d = Return (Some (JStr "success"))) ∧
  (∀ target_version target_image w w' version image,
     truthy target_version = false →
     truthy target_image = false →
     Rollback.resolve_target aws environment target_version target_image w
       = Some (Return (Some (version, image)), w') →
     ∃ d w1,
       Rollback.find_previous_successful_deployment aws environment w
         = Some (Return (Some d), w1) ∧
       json_get "status" d = Return (Some (JStr "success")) ∧
       json_item "version" d = Return version ∧
       json_item "image" d = Return image).
Proof.
  assert (∀ w w' d,
     Rollback.find_previous_successful_deployment aws environment w
       = Some (Return (Some d), w') →
     json_get "status" d = Return (Some (JStr "success"))) as Hfound.
  { intros w w' d. unfold Rollback.find_previous_successful_deployment.
    intros [(e & _ & [=])|(history & w1 & _ & Hscan)]%bind_run.
    injection Hscan as Hscan _. by eapply first_successful_status. }
  split; [exact Hfound|].
  intros tv ti w w' version image Htv Hti. unfold Rollback.resolve_target.
  rewrite Htv, Hti. cbn.
  intros [(e & _ & [=])|([d|] & w1 & Hfind & Hrest)]%bind_run; [|done].
  exists d, w1. split; [done|]. split; [by eapply Hfound|].
  destruct (truthy d); cbn in Hrest; [|done].
  apply bind_run in Hrest as [(e & _ & [=])|(v & w2 & Hv & Hrest)].
  apply bind_run in Hrest as [(e & _ & [=])|(i & w3 & Hi & Hrest)].
  injection Hv as -> _. injection Hi as -> _. by injection Hrest as -> ->.
Qed.

Lemma quiet_get_deployment_history limit :
  quiet (Rollback.get_deployment_history aws environment limit).
Proof.
  intros w r w' Hrun.
  destruct (get_deployment_history_run limit w) as (w1 & Hrun1 & Hq).
  congruence.
Qed.

Lemma quiet_resolve_target target_version target_image :
  quiet (Rollback.resolve_target aws environment target_version
           target_image).
Proof.
  unfold Rollback.resolve_target.
  destruct (negb (truthy target_version) && negb (truthy target_image));
    [|apply quiet_ret].
  apply quiet_bind.
  { apply quiet_bind; [apply quiet_get_deployment_history|].
    intros history. apply quiet_lift. }
  intros [d|]; [|apply quiet_ret].
  destruct (negb (truthy d)); [apply quiet_ret|].
  apply quiet_bind; [apply quiet_lift|]. intros version.
  apply quiet_bind; [apply quiet_lift|]. intros image. apply quiet_ret.
Qed.

(** A sequence whose first step is quiet. *)
Lemma bind_quiet_run {A B} (m : M A) (k : A → M B) w r w' :
  quiet m →
  (m ≫= k) w = Some (r, w') →
  (∃ e, r = Raise e ∧ quiet_step w w') ∨
  (∃ a w1, quiet_step w w1 ∧ k a w1 = Some (r, w')).
Proof.
  intros Hm [(e & Hrun & ->)|(a & w1 & Hrun & Hrest)]%bind_run.
  - left. exists e. split; [done|by eapply Hm].
  - right. exists a, w1. split; [by eapply Hm|done].
Qed.

(** How rollback_to_version runs: quietly up to the end of the refresh,
    and then record_rollback is called exactly when the refresh was
    successful. *)
Lemma rollback_to_version_run target_version target_image w r w' :
  Rollback.rollback_to_version aws environment target_version target_image w
    = Some (r, w') →
  (quiet_step w w' ∧ r ≠ Return true) ∨
  (∃ w1 version image outcome,
     quiet_step w w1 ∧
     Rollback.record_rollback aws environment version image w1
       = Some (outcome, w') ∧
     r = (_ ← outcome; Return true)).
Proof.
  unfold Rollback.rollback_to_version. intros Hrun.
  apply bind_quiet_run in Hrun
    as [(e & -> & Hq)|([[version image]|] & w1 & Hq1 & Hrun)];
    [by left| |left|apply quiet_resolve_target].
  2:{ injection Hrun as <- <-. done. }
  apply bind_quiet_run in Hrun
    as [(e & -> & Hq)|([|asg groups] & w2 & Hq2 & Hrun)];
    [left; split; [by eapply quiet_step_trans|done]| | |
     by apply quiet_service].
  { injection Hrun as <- <-. left.
    split; [by eapply quiet_step_trans|done]. }
  assert (quiet_step w w2) as Hq by (by eapply quiet_step_trans).
  clear Hq1 Hq2 w1.
  apply bind_quiet_run in Hrun
    as [(e & -> & Hq')|(lt_id & w3 & Hq3 & Hrun)];
    [left; split; [by eapply quiet_step_trans|done]| |apply quiet_lift].
  apply bind_quiet_run in Hrun
    as [(e & -> & Hq')|(lt_versions & w4 & Hq4 & Hrun)];
    [left; split; [by do 2 (eapply quiet_step_trans; [|done])|done]| |
     by apply quiet_service].
  apply bind_quiet_run in Hrun
    as [(e & -> & Hq')|(matching & w5 & Hq5 & Hrun)];
    [left; split; [by do 3 (eapply quiet_step_trans; [|done])|done]| |
     apply quiet_lift].
  assert (quiet_step w w5) as Hq'
    by (by do 3 (eapply quiet_step_trans; [|done])).
  clear Hq Hq3 Hq4 Hq5 w2 w3 w4.
  apply bind_quiet_run in Hrun
    as [(e & -> & Hq6)|(target_lt_version & w6 & Hq6 & Hrun)];
    [left; split; [by eapply quiet_step_trans|done]| |
     destruct (Rollback.no_version matching);
       [by apply quiet_service|apply quiet_ret]].
  apply bind_quiet_run in Hrun
    as [(e & -> & Hq7)|([] & w7 & Hq7 & Hrun)];
    [left; split; [by do 2 (eapply quiet_step_trans; [|done])|done]| |
     by apply quiet_service].
  apply bind_quiet_run in Hrun
    as [(e & -> & Hq8)|(refresh_id & w8 & Hq8 & Hrun)];
    [left; split; [by do 3 (eapply quiet_step_trans; [|done])|done]| |
     by apply quiet_service].
  assert (quiet_step w w8) as Hq
    by (by do 3 (eapply quiet_step_trans; [|done])).
  clear Hq' Hq6 Hq7 Hq8 w5 w6 w7.
  apply bind_quiet_run in Hrun
    as [(e & -> & Hq9)|(success & w9 & Hq9 & Hrun)];
    [left; split; [by eapply quiet_step_trans|done]| |
     apply quiet_monitor_refresh].
  assert (quiet_step w w9) as Hq' by (by eapply quiet_step_trans).
  destruct success.
  - right. exists w9, version, image.
    apply bind_run in Hrun as [(e & Hrec & ->)|([] & w10 & Hrec & Hret)].
    + by exists (Raise e).
    + injection Hret as <- <-. by exists (Return tt).
  - left. apply bind_run in Hrun as [(e & [=] & _)|([] & w10 & Hskip & Hret)].
    injection Hskip as <-. injection Hret as <- <-. done.
Qed.

(** Every run of the rollback script that ends, with a store that accepts
    writes, exits with status 0 after one record written at the end, or
    with status 1 after no write at all. *)
Lemma rollback_main_run previous_version image w r w' :
  put_outcome aws = Return tt →
  Rollback.main aws environment previous_version image w = Some (r, w') →
  (r = Return 0 ∧
   ∃ w1 target_version target_image,
     quiet_step w w1 ∧
     Rollback.record_rollback aws environment target_version target_image w1
       = Some (Return tt, w')) ∨
  (r = Return 1 ∧ quiet_step w w').
Proof.
  intros Hput Hrun. unfold Rollback.main in Hrun.
  apply try_except_run in Hrun
    as [(code & Hbody & ->)|(e & w1 & Hbody & Hhandler)].
  - apply bind_run in Hbody as [(e & _ & [=])|(success & w1 & Hroll & Hret)].
    injection Hret as <- <-.
    apply rollback_to_version_run in Hroll
      as [[Hq Hne]|(w2 & tv & ti & outcome & Hq & Hrec & Hr)].
    + right. by destruct success.
    + left. pose proof Hrec as Hrec'.
      rewrite record_rollback_run, Hput in Hrec'.
      injection Hrec' as <- _. cbn in Hr. injection Hr as ->.
      split; [done|]. by exists w2, tv, ti.
  - injection Hhandler as <- <-. right. split; [done|].
    apply bind_run in Hbody as [(e' & Hroll & _)|(? & ? & _ & [=])].
    apply rollback_to_version_run in Hroll
      as [[Hq _]|(w2 & tv & ti & outcome & Hq & Hrec & Hr)]; [done|].
    rewrite record_rollback_run, Hput in Hrec.
    injection Hrec as <- _. done.
Qed.

End RollbackFacts.

Lemma find_previous_successful_deployment_newest_witness :
  ∃ w',
    Rollback.find_previous_successful_deployment Samples.archived
      "production" (Samples.rerun [])
    = Some (Return (Some (Deploy.deployment_record "production"
                            "2024-04-08T09:00:00" "2.0" "app:2.0"
                            "success")), w').
Proof.
  destruct (find_previous_successful_deployment_newest Samples.archived
              "production" (Samples.rerun []))
    as (w' & Hrun & _).
  - vm_compute. repeat constructor.
  - exists w'. rewrite Hrun. vm_compute. reflexivity.
Defined.

(** C3. On the code the claim fails as soon as the history holds more than
    20 records. The store lists the keys in ascending order and cuts the
    listing after MaxKeys=20, before get_deployment_history sorts it, so
    the window holds the 20 oldest records, not the most recent ones. Over
    21 daily deployments of which the first and the last succeeded and the
    others failed, the window is days 01 to 20, every listed object is
    older than the record of day 21 (a success, and the newest of all), and
    find_previous_successful_deployment returns the record of day 01, the
    oldest of all; a rollback without arguments then targets its version
    and image. *)
Theorem find_previous_successful_deployment_misses_newest :
  let bucket := "production-devops-artifacts" in
  let window := listed Samples.journaled "production" 20 Samples.replay in
  Key <$> window = Samples.day_key <$> seq 1 20 ∧
  s3 Samples.replay !! (bucket, Samples.day_key 21)
    = Some (JsonText (Samples.day_record 21)) ∧
  is_success (Samples.day_record 21) = true ∧
  forallb (λ obj, LastModified obj
                  <? Samples.journal_modified (Samples.day_key 21)) window
    = true ∧
  fst <$> Rollback.find_previous_successful_deployment Samples.journaled
            "production" Samples.replay
    = Some (Return (Some (Samples.day_record 1))) ∧
  fst <$> Rollback.resolve_target Samples.journaled "production" JNull JNull
            Samples.replay
    = Some (Return (Some (JStr "1.01", JStr "app:1.01"))).
Proof. repeat split; vm_compute; reflexivity. Qed.

Lemma rollback_target_is_successful_witness :
  json_get "status"
    (Deploy.deployment_record "production" "2024-04-08T09:00:00" "2.0"
       "app:2.0" "success")
  = Return (Some (JStr "success")).
Proof.
  eapply (proj1 (rollback_target_is_successful Samples.archived "production")
            (Samples.rerun [])).
  vm_compute. reflexivity.
Defined.

Lemma verify_deployment_success_witness :
  ∃ k states,
    (k < 20)%nat ∧
    [Return ["healthy"; "initial"]; Return ["healthy"; "healthy"]] !! k
      = Some (Return states) ∧
    length (filter (λ state, state = "healthy") states) = length states ∧
    (0 < length states)%nat.
Proof.
  destruct (verify_deployment_success "production-tg"
              (Samples.fresh []
                 [Return ["healthy"; "initial"];
                  Return ["healthy"; "healthy"]])
              {| s3 := ∅;
                 calls := [DescribeTargetHealth "production-tg";
                           DescribeTargetHealth "production-tg"];
                 refresh_polls := []; health_polls := [];
                 clock_reads := 0; slept := 15 |} eq_refl)
    as (k & states & Hk & Hpoll & Hall & Hpos & _).
  by exists k, states.
Defined.

(** * Worked runs *)

(** The version lookup of the rollback: the first version whose user data
    contains the image; the match is by substring. *)
Example find_matching_launch_template_runs :
  let versions :=
    [{| VersionNumber := 1; UserData := Some "docker pull app:1.0" |};
     {| VersionNumber := 2; UserData := Some "docker pull app:2.0" |}] in
  Rollback.find_matching_launch_template versions (JStr "app:2.0")
    = Return (Some 2) ∧
  Rollback.find_matching_launch_template versions (JStr "app:3.0")
    = Return None ∧
  Rollback.find_matching_launch_template versions (JStr "app:1")
    = Return (Some 1) ∧
  Rollback.find_matching_launch_template versions JNull = Raise TypeError.
Proof. repeat split. Qed.

(** With no target given, the rollback over the archive resolves the
    version and image of 2.0, the newest successful deployment, passing
    over the failed 3.0. *)
Example resolve_target_runs :
  fst <$> Rollback.resolve_target Samples.archived "production" JNull JNull
            (Samples.rerun [])
  = Some (Return (Some (JStr "2.0", JStr "app:2.0"))).
Proof. vm_compute. reflexivity. Qed.

(** Twenty checks with one failure pass the 95% threshold, with two
    failures they do not. *)
Example monitoring_summary_runs :
  HealthCheck.monitoring_summary
    {| HealthCheck.check_count := 20; HealthCheck.failed_checks := 1;
       HealthCheck.finish := 200 |} = Return true ∧
  HealthCheck.monitoring_summary
    {| HealthCheck.check_count := 20; HealthCheck.failed_checks := 2;
       HealthCheck.finish := 200 |} = Return false.
Proof. split; reflexivity. Qed.

(** A service that answers 503 twice and then 200 with a health document:
    the third attempt succeeds, 22 seconds after the start. *)
Example wait_for_healthy_runs :
  let starting :=
    {| HealthCheck.outcome := HealthCheck.Response 503 (Raise JSONDecodeError);
       HealthCheck.latency := 1 |} in
  let up :=
    {| HealthCheck.outcome :=
         HealthCheck.Response 200
           (Return (JObj [("status", JStr "healthy");
                          ("uptime", JNum (inject_Z 12))]));
       HealthCheck.latency := 0 |} in
  HealthCheck.wait_for_healthy 300 10 [starting; starting; up] 0
  = Some {| HealthCheck.value := Return true; HealthCheck.clock := 22;
            HealthCheck.count := 3 |}.
Proof. reflexivity. Qed.

(** * Further properties: strings *)
Section StringFacts.

Lemma string_app_nil (s : string) : "" +:+ s = s.
Proof. reflexivity. Qed.

Lemma string_app_cons c (a s : string) :
  String c a +:+ s = String c (a +:+ s).
Proof. reflexivity. Qed.

Lemma string_app_assoc (a b c : string) : (a +:+ b) +:+ c = a +:+ b +:+ c.
Proof.
  induction a as [|x a IH]; [done|].
  by rewrite !string_app_cons, IH.
Qed.

Lemma prefix_spec (a s : string) :
  String.prefix a s = true ↔ ∃ post, s = a +:+ post.
Proof.
  revert s. induction a as [|x a IH]; intros s.
  - split; [by exists s|by destruct s].
  - destruct s as [|y s]; cbn.
    { split; [done|intros [post Hpost]]. by rewrite string_app_cons in Hpost. }
    destruct (Ascii.ascii_dec x y) as [->|Hne].
    + rewrite IH. split; intros [post Hpost]; exists post;
        rewrite ?string_app_cons in *; congruence.
    + split; [done|intros [post Hpost]].
      rewrite string_app_cons in Hpost. congruence.
Qed.

Lemma contains_app (sub pre post : string) :
  contains sub (pre +:+ sub +:+ post) = true.
Proof.
  induction pre as [|c pre IH].
  - rewrite string_app_nil.
    assert (String.prefix sub (sub +:+ post) = true) as Hp
      by (apply prefix_spec; by exists post).
    revert Hp. generalize (sub +:+ post). intros s Hp.
    destruct s; cbn [contains]; by rewrite Hp.
  - rewrite string_app_cons. cbn [contains]. rewrite IH. apply orb_true_r.
Qed.

Lemma contains_split (sub s : string) :
  contains sub s = true → ∃ pre post, s = pre +:+ sub +:+ post.
Proof.
  induction s as [|c s IH]; cbn [contains].
  - rewrite orb_false_r. intros [post ->]%prefix_spec. by exists "", post.
  - intros [[post ->]%prefix_spec|Hin]%orb_true_iff; [by exists "", post|].
    destruct (IH Hin) as (pre & post & ->). by exists (String c pre), post.
Qed.

(** X1. The substring test [sub in s] of find_matching_launch_template
    holds exactly when [s] is some text, then [sub], then some text; an
    empty [sub] is found in every string. *)
Theorem contains_spec (sub s : string) :
  (contains sub s = true ↔ ∃ pre post, s = pre +:+ sub +:+ post) ∧
  contains "" s = true.
Proof.
  split; [split; [apply contains_split|]|].
  - intros (pre & post & ->). apply contains_app.
  - by destruct s.
Qed.

Lemma contains_trans (a b s : string) :
  contains b a = true → contains a s = true → contains b s = true.
Proof.
  intros (p1 & q1 & ->)%contains_split (p2 & q2 & ->)%contains_split.
  rewrite !string_app_assoc, <- (string_app_assoc p2 p1).
  apply contains_app.
Qed.

End StringFacts.

(** * Further properties: the health checker *)
Section HealthCheckMore.
Import HealthCheck.





Lemma replace_from_skip old new t :
  replace_from old new (String.length t) t = replace_from old new 0 "".
Proof. induction t as [|c t IH]; [done|]. cbn. apply IH. Qed.

Lemma string_app_nil_r (t : string) : t +:+ "" = t.
Proof.
  induction t as [|c t IH]; [done|]. by rewrite string_app_cons, IH.
Qed.

(** X27. For a health URL that ends in the text to replace and has no
    earlier occurrence of it, the replacement changes the ending only: a
    URL [base/health] becomes [base/metrics]. *)
Theorem replace_suffix (old new base : string) :
  old ≠ "" →
  occurs_early old base = false →
  replace old new (base +:+ old) = base +:+ new.
Proof.
  intros Hold. unfold replace. induction base as [|c base IH].
  - intros _. rewrite !string_app_nil. destruct old as [|x old]; [done|].
    cbn [replace_from].
    assert (String.prefix (String x old) (String x old) = true) as ->.
    { apply prefix_spec. exists "". by rewrite string_app_nil_r. }
    rewrite replace_from_skip. cbn. by rewrite string_app_nil_r.
  - cbn [occurs_early]. intros [Hp Hearly]%orb_false_iff.
    rewrite !string_app_cons in *. cbn [replace_from]. rewrite Hp.
    by rewrite IH.
Qed.

Lemma replace_suffix_witness :
  replace "/health" "/metrics" "http://app.example.com:3000/health"
  = "http://app.example.com:3000/metrics".
Proof.
  exact (replace_suffix "/health" "/metrics" "http://app.example.com:3000"
           ltac:(done) eq_refl).
Defined.


(** X4. A negative --continuous makes the command exit with status 1
    without a single check (the division by zero is caught by the handler
    of main), and --continuous 0 is taken as absent: the command waits for
    a healthy answer instead. *)
Theorem main_continuous_edge url timeout interval check_metrics probes
    fetch start :
  (∀ duration, duration < 0 →
     main url timeout interval (Some duration) check_metrics probes fetch
       start = Some 1) ∧
  main url timeout interval (Some 0) check_metrics probes fetch start
  = main url timeout interval None check_metrics probes fetch start.
Proof.
  split; [|done]. intros duration Hneg. unfold main, continuous_mode.
  destruct (Z.eqb_spec duration 0); [lia|].
  unfold continuous_monitoring.
  destruct probes; cbn; destruct (Z.ltb_spec (start - start) duration);
    (lia || done).
Qed.

Lemma main_continuous_edge_witness :
  main "http://app.example.com/health" 300 10 (Some (-5)) false [] 
    (λ _, TransportFailure) 0 = Some 1.
Proof.
  apply (proj1 (main_continuous_edge "http://app.example.com/health" 300 10
                  false [] (λ _, TransportFailure) 0)).
  lia.
Defined.

(** X5. print_health_data returns normally exactly for a document that is
    absent, falsy, or an object whose uptime is missing, a boolean, or a
    number within the range of a double. For a truthy document that is not
    an object it raises AttributeError, and for an object whose uptime is a
    number beyond the range of a double (an integer such as 10^400) it
    raises OverflowError. *)
Theorem print_health_data_returns data :
  (print_health_data data = Return tt ↔
   from_option (λ d, printable d = true) True data) ∧
  (∀ d, data = Some d → truthy d = true →
        (∀ m, d ≠ JObj m) → print_health_data data = Raise AttributeError) ∧
  (∀ m x, data = Some (JObj m) → m ≠ [] →
          dict_get "uptime" m = Some (JNum x) → fits_float x = false →
          print_health_data data = Raise OverflowError).
Proof.
  split; [|split].
  - destruct data as [d|]; cbn; [|done]. unfold printable.
    destruct (truthy d) eqn:Ht; cbn; [|done].
    destruct d as [| | | | |m]; cbn; try done.
    destruct (dict_get "uptime" m) as [[| |x| | |]|]; cbn; try done.
    by destruct (fits_float x).
  - intros d -> Ht Hobj. cbn. rewrite Ht. cbn.
    destruct d as [| | | | |m]; cbn; try done. by destruct (Hobj m).
  - intros m x -> Hm Hup Hfit.
    assert (truthy (JObj m) = true) as Ht by (by destruct m).
    unfold print_health_data. rewrite Ht. cbn [negb]. unfold json_get.
    cbn [mbind result_bind]. rewrite Hup. cbn. by rewrite Hfit.
Qed.

Lemma print_health_data_returns_witness :
  print_health_data (Some (JList [JStr "ok"])) = Raise AttributeError ∧
  print_health_data
    (Some (JObj [("status", JStr "healthy");
                 ("uptime", JNum (inject_Z (10 ^ 400)))]))
  = Raise OverflowError.
Proof.
  split.
  - by apply (proj1 (proj2 (print_health_data_returns
                              (Some (JList [JStr "ok"]))))
                (JList [JStr "ok"])).
  - by eapply (proj2 (proj2 (print_health_data_returns _))
                 [("status", JStr "healthy");
                  ("uptime", JNum (inject_Z (10 ^ 400)))]
                 (inject_Z (10 ^ 400))).
Defined.





(** X7. An endpoint that answers 200 with a JSON body that is truthy but
    not an object (a non-empty list, a string, a number) is healthy for
    check_health, yet wait_for_healthy raises AttributeError while printing
    it, and the command exits with status 1. *)
Theorem healthy_answer_exits_1 url timeout interval check_metrics fetch
    start latency d rest :
  0 ≤ timeout →
  truthy d = true →
  (∀ m, d ≠ JObj m) →
  let p := {| outcome := Response 200 (Return d); latency := latency |} in
  check_health (outcome p) = Return (true, Some d) ∧
  (∃ e, wait_for_healthy timeout interval (p :: rest) start = Some e ∧
        value e = Raise AttributeError) ∧
  main url timeout interval None check_metrics (p :: rest) fetch start
  = Some 1.
Proof.
  intros Htimeout Ht Hobj p.
  assert (print_health_data (Some d) = Raise AttributeError) as Hprint.
  { cbn. rewrite Ht. cbn. destruct d as [| | | | |m]; try done.
    by destruct (Hobj m). }
  split; [done|].
  assert (wait_for_healthy timeout interval (p :: rest) start
          = Some {| value := Raise AttributeError; clock := start + latency;
                    count := 1 |}) as Hwait.
  { unfold wait_for_healthy. cbn [wait_loop].
    destruct (Z.ltb_spec timeout (start - start)); [lia|].
    change (check_health (outcome p)) with (Return (true, Some d) : result _).
    cbv beta iota. by rewrite Hprint. }
  split; [by eexists|].
  unfold main. cbn [continuous_mode]. by rewrite Hwait.
Qed.

Lemma healthy_answer_exits_1_witness :
  main "http://app.example.com/health" 300 10 None false
    [{| outcome := Response 200 (Return (JStr "OK")); latency := 1 |}]
    (λ _, TransportFailure) 0 = Some 1.
Proof.
  apply (healthy_answer_exits_1 "http://app.example.com/health" 300 10 false
           (λ _, TransportFailure) 0 1 (JStr "OK") []); [lia|done|done].
Defined.

(** X8. When continuous_monitoring has made at least one check, the check
    count is the number of polls made, the failed count is the number of
    those polls that failed, no failure ends the loop early (the loop ends
    by the clock alone), and the result is True exactly when at most one
    poll in twenty failed. *)
Theorem continuous_monitoring_tally duration interval probes start t :
  monitoring_loop duration interval start probes 0 0 start
    = Some (Return t) →
  ∃ n, (n ≤ length probes)%nat ∧
       check_count t = Z.of_nat n ∧
       failed_checks t = failures (take n probes) ∧
       finish t = start + time_spent interval (take n probes) ∧
       duration ≤ finish t - start ∧
       ((0 < n)%nat →
        continuous_monitoring duration interval probes start
        = Some (Return (bool_decide
                          (20 * failures (take n probes) ≤ Z.of_nat n)))).
Proof.
  intros Hloop.
  destruct (monitoring_loop_polls _ _ _ _ _ _ _ _ Hloop)
    as (n & Hn & Hcount & Hfailed & Hfinish & Hend & _).
  exists n. repeat split; try done; try lia.
  intros Hpos. unfold continuous_monitoring. rewrite Hloop. cbn.
  rewrite monitoring_summary_positive by lia.
  rewrite Hcount, Hfailed.
  rewrite (bool_decide_ext _ (20 * failures (take n probes) ≤ Z.of_nat n));
    [done|lia].
Qed.

Lemma continuous_monitoring_tally_witness :
  let up := {| outcome := Response 200 (Return (JObj [])); latency := 0 |} in
  let down := {| outcome := Response 500 (Raise JSONDecodeError);
                 latency := 0 |} in
  continuous_monitoring 20 10 [up; down; up] 0 = Some (Return false).
Proof.
  intros up down.
  destruct (continuous_monitoring_tally 20 10 [up; down; up] 0
              {| check_count := 2; failed_checks := 1; finish := 20 |}
              eq_refl) as (n & Hn & Hcount & _ & _ & _ & Hresult).
  cbn in Hcount. assert (n = 2%nat) as -> by lia.
  exact (Hresult ltac:(lia)).
Defined.

End HealthCheckMore.

(** * Further properties: the deployment manager *)
Section DeployMore.
Context (aws : cloud) (environment : string).

(** One poll of the monitoring loop on a running answer. *)
Lemma monitor_loop_running n name refresh_id w answer rest :
  refresh_polls w = Return answer :: rest →
  refresh_verdict answer = None →
  Deploy.monitor_loop (S n) name refresh_id w
  = Deploy.monitor_loop n name refresh_id
      {| s3 := s3 w;
         calls := DescribeInstanceRefreshes name refresh_id :: calls w;
         refresh_polls := rest; health_polls := health_polls w;
         clock_reads := clock_reads w; slept := slept w + 30 |}.
Proof.
  intros Hpolls Hrun. cbn [Deploy.monitor_loop].
  unfold mbind at 1, M_bind at 1, describe_instance_refreshes.
  rewrite Hpolls. destruct answer as [|refresh more]; [done|]. cbn in Hrun.
  destruct (String.eqb (Status refresh) "Successful"); [done|].
  by destruct (String.eqb (Status refresh) "Cancelled"
               || String.eqb (Status refresh) "Failed").
Qed.

(** One poll of the monitoring loop on an answer that ends it. *)
Lemma monitor_loop_last n name refresh_id w last rest :
  refresh_polls w = last :: rest →
  (∀ answer, last = Return answer → is_Some (refresh_verdict answer)) →
  Deploy.monitor_loop (S n) name refresh_id w
  = Some (answer ← last; from_option Return (Return false)
                            (refresh_verdict answer),
          {| s3 := s3 w;
             calls := DescribeInstanceRefreshes name refresh_id :: calls w;
             refresh_polls := rest; health_polls := health_polls w;
             clock_reads := clock_reads w; slept := slept w |}).
Proof.
  intros Hpolls Hlast. cbn [Deploy.monitor_loop].
  unfold mbind at 1, M_bind at 1, describe_instance_refreshes.
  rewrite Hpolls. destruct last as [answer|e]; [|done].
  destruct (Hlast answer eq_refl) as [b Hb]. cbn. rewrite Hb. cbn.
  destruct answer as [|refresh more]; cbn in Hb; [by injection Hb as <-|].
  destruct (String.eqb (Status refresh) "Successful");
    [by injection Hb as <-|].
  by destruct (String.eqb (Status refresh) "Cancelled"
               || String.eqb (Status refresh) "Failed");
    [injection Hb as <-|].
Qed.

Lemma monitor_loop_run name refresh_id last rest :
  (∀ answer, last = Return answer → is_Some (refresh_verdict answer)) →
  ∀ pre n w,
    Forall running pre →
    refresh_polls w = pre ++ last :: rest →
    (length pre < n)%nat →
    ∃ w',
      Deploy.monitor_loop n name refresh_id w
      = Some (answer ← last; from_option Return (Return false)
                                (refresh_verdict answer), w') ∧
      refresh_polls w' = rest ∧
      slept w' = slept w + 30 * Z.of_nat (length pre) ∧
      calls w'
      = replicate (S (length pre))
          (DescribeInstanceRefreshes name refresh_id) ++ calls w ∧
      s3 w' = s3 w ∧ health_polls w' = health_polls w.
Proof.
  intros Hlast pre. induction pre as [|poll pre IH];
    intros n w Hpre Hpolls Hn; (destruct n as [|n]; [cbn in Hn; lia|]).
  - erewrite monitor_loop_last by done. eexists; split; [done|]. cbn.
    repeat split; lia.
  - apply Forall_cons in Hpre as [(answer & -> & Hrun) Hpre].
    erewrite monitor_loop_running by done.
    edestruct (IH n) as (w' & -> & Hrest & Hslept & Hcalls & Hs3 & Hh);
      [done| |cbn in Hn; lia|]; [done|].
    eexists; split; [done|]. cbn in *. rewrite Hcalls.
    repeat split; try done; try lia.
    f_equal. generalize (length pre) as k. intros k.
    induction k as [|k IHk]; cbn; [done|]. by rewrite IHk.
Qed.

(** X9. monitor_refresh polls through the answers that report a refresh in
    progress, sleeping 30 seconds after each, and ends at the first other
    answer: with True for Successful, with False for Cancelled, Failed or
    an empty answer, and with the exception when the call raises. It makes
    one call per poll and writes nothing. As long as the answers report any
    other status the loop does not end. *)
Theorem monitor_refresh_run name refresh_id pre last rest w :
  Forall running pre →
  refresh_polls w = pre ++ last :: rest →
  (∀ answer, last = Return answer → is_Some (refresh_verdict answer)) →
  (∃ w',
     Deploy.monitor_refresh name refresh_id w
     = Some (answer ← last; from_option Return (Return false)
                               (refresh_verdict answer), w') ∧
     refresh_polls w' = rest ∧
     slept w' = slept w + 30 * Z.of_nat (length pre) ∧
     calls w'
     = replicate (S (length pre))
         (DescribeInstanceRefreshes name refresh_id) ++ calls w ∧
     s3 w' = s3 w ∧ health_polls w' = health_polls w) ∧
  (∀ w0, refresh_polls w0 = pre →
         Deploy.monitor_refresh name refresh_id w0 = None).
Proof.
  intros Hpre Hpolls Hlast. split.
  - unfold Deploy.monitor_refresh.
    eapply monitor_loop_run; eauto. rewrite Hpolls, length_app. cbn. lia.
  - unfold Deploy.monitor_refresh. intros w0 Hw0. rewrite Hw0.
    clear Hpolls. generalize (length pre) as n. intros n.
    revert w0 pre Hpre Hw0. induction n as [|n IH]; intros w0 pre Hpre Hw0;
      [done|].
    destruct Hpre as [|poll pre (answer & -> & Hrun) Hpre].
    + cbn. unfold mbind, M_bind, describe_instance_refreshes.
      by rewrite Hw0.
    + erewrite monitor_loop_running by done. by eapply IH.
Qed.

Lemma monitor_refresh_run_witness :
  ∃ w',
    Deploy.monitor_refresh "dev-asg" "refresh-1"
      (Samples.fresh [Samples.refresh_in "Pending";
                      Samples.refresh_in "InProgress";
                      Samples.refresh_in "Successful"] [])
    = Some (Return true, w') ∧ slept w' = 60.
Proof.
  destruct (monitor_refresh_run "dev-asg" "refresh-1"
              [Samples.refresh_in "Pending"; Samples.refresh_in "InProgress"]
              (Samples.refresh_in "Successful") []
              (Samples.fresh [Samples.refresh_in "Pending";
                              Samples.refresh_in "InProgress";
                              Samples.refresh_in "Successful"] []))
    as [(w' & Hrun & _ & Hslept & _) _].
  - repeat constructor; by eexists.
  - reflexivity.
  - intros answer [= <-]. by eexists.
  - by exists w'.
Defined.

Lemma pauses_cons max_attempts attempt attempts :
  pauses max_attempts (attempt :: attempts)
  = (if attempt <? max_attempts - 1 then 15 else 0)
    + pauses max_attempts attempts.
Proof.
  unfold pauses. rewrite filter_cons.
  destruct (Z.ltb_spec attempt (max_attempts - 1));
    destruct (decide (attempt < max_attempts - 1)); cbn [length]; lia.
Qed.

(** One attempt of the verification loop on an answer that is not fully
    healthy. *)
Lemma verify_loop_retry max_attempts attempt attempts arn w poll rest :
  health_polls w = poll :: rest →
  not_yet_healthy poll →
  Deploy.verify_loop max_attempts (attempt :: attempts) arn w
  = Deploy.verify_loop max_attempts attempts arn
      {| s3 := s3 w; calls := DescribeTargetHealth arn :: calls w;
         refresh_polls := refresh_polls w; health_polls := rest;
         clock_reads := clock_reads w;
         slept := slept w + (if attempt <? max_attempts - 1 then 15 else 0) |}.
Proof.
  intros Hpolls (states & -> & Hbad). cbn [Deploy.verify_loop].
  unfold mbind at 1, M_bind at 1, describe_target_health.
  rewrite Hpolls, Hbad.
  destruct (attempt <? max_attempts - 1); cbn; [done|].
  by rewrite Z.add_0_r.
Qed.

Lemma verify_loop_finds max_attempts arn states rest :
  Deploy.all_targets_healthy states = true →
  ∀ pre attempts w,
    Forall not_yet_healthy pre →
    health_polls w = pre ++ Return states :: rest →
    (length pre < length attempts)%nat →
    ∃ w',
      Deploy.verify_loop max_attempts attempts arn w
        = Some (Return true, w') ∧
      health_polls w' = rest ∧
      slept w' = slept w + pauses max_attempts (take (length pre) attempts) ∧
      calls w' = replicate (S (length pre)) (DescribeTargetHealth arn)
                 ++ calls w ∧
      s3 w' = s3 w.
Proof.
  intros Hok pre. induction pre as [|poll pre IH];
    intros attempts w Hpre Hpolls Hlen;
    (destruct attempts as [|attempt attempts]; [cbn in Hlen; lia|]).
  - cbn [Deploy.verify_loop].
    unfold mbind at 1, M_bind at 1, describe_target_health.
    rewrite Hpolls. cbn. rewrite Hok. eexists; split; [done|]. cbn.
    unfold pauses. cbn. repeat split; lia.
  - apply Forall_cons in Hpre as [Hpoll Hpre].
    erewrite verify_loop_retry by done.
    edestruct (IH attempts) as (w' & -> & Hrest & Hslept & Hcalls & Hs3);
      [done| |cbn in Hlen; lia|]; [done|].
    eexists; split; [done|]. cbn [length take]. rewrite pauses_cons.
    cbn in *. rewrite Hcalls. repeat split; try done; try lia.
    f_equal. generalize (length pre) as k. intros k.
    induction k as [|k IHk]; cbn; [done|]. by rewrite IHk.
Qed.

Lemma verify_loop_exhausts max_attempts arn attempts :
  ∀ w,
    (length attempts ≤ length (health_polls w))%nat →
    Forall not_yet_healthy (take (length attempts) (health_polls w)) →
    ∃ w',
      Deploy.verify_loop max_attempts attempts arn w
        = Some (Return false, w') ∧
      health_polls w' = drop (length attempts) (health_polls w) ∧
      slept w' = slept w + pauses max_attempts attempts ∧
      calls w' = replicate (length attempts) (DescribeTargetHealth arn)
                 ++ calls w ∧
      s3 w' = s3 w.
Proof.
  induction attempts as [|attempt attempts IH]; intros w Hlen Hall.
  - eexists; split; [done|]. unfold pauses. cbn. repeat split; lia.
  - destruct (health_polls w) as [|poll rest] eqn:Hpolls; cbn in Hlen; [lia|].
    cbn [length take] in Hall. apply Forall_cons in Hall as [Hpoll Hall].
    erewrite verify_loop_retry by done.
    edestruct IH as (w' & -> & Hrest & Hslept & Hcalls & Hs3);
      [| |eexists; split; [done|]]; cbn; [lia|done|].
    rewrite pauses_cons. cbn in *. rewrite Hcalls.
    repeat split; try done; try lia.
    generalize (length attempts) as k. intros k.
    induction k as [|k IHk]; cbn; [done|]. by rewrite IHk.
Qed.

(** X10. verify_deployment returns True at the first poll that shows a
    group with at least one target and all targets healthy, provided it is
    among the first 20: it has made one call per poll, has slept 15
    seconds after each earlier poll, and has written nothing. *)
Theorem verify_deployment_finds arn pre states rest w :
  Forall not_yet_healthy pre →
  health_polls w = pre ++ Return states :: rest →
  Deploy.all_targets_healthy states = true →
  (length pre < 20)%nat →
  ∃ w',
    Deploy.verify_deployment arn w = Some (Return true, w') ∧
    health_polls w' = rest ∧
    slept w' = slept w + 15 * Z.of_nat (length pre) ∧
    calls w' = replicate (S (length pre)) (DescribeTargetHealth arn)
               ++ calls w ∧
    s3 w' = s3 w.
Proof.
  intros Hpre Hpolls Hok Hlen. unfold Deploy.verify_deployment.
  destruct (verify_loop_finds 20 arn states rest Hok pre (seqZ 0 20) w)
    as (w' & Hrun & Hrest & Hslept & Hcalls & Hs3); [done..| |].
  { by rewrite length_seqZ. }
  exists w'. repeat split; try done. rewrite Hslept. f_equal.
  clear -Hlen. generalize (length pre) as k, Hlen. intros k Hk.
  do 20 (destruct k as [|k]; [vm_compute; reflexivity|]). lia.
Qed.

Lemma verify_deployment_finds_witness :
  ∃ w',
    Deploy.verify_deployment "production-tg"
      (Samples.fresh [] [Return []; Return ["initial"]; Return ["healthy"]])
    = Some (Return true, w') ∧ slept w' = 30.
Proof.
  destruct (verify_deployment_finds "production-tg"
              [Return []; Return ["initial"]] ["healthy"] []
              (Samples.fresh []
                 [Return []; Return ["initial"]; Return ["healthy"]]))
    as (w' & Hrun & _ & Hslept & _).
  - repeat constructor; by eexists.
  - reflexivity.
  - reflexivity.
  - cbn. lia.
  - by exists w'.
Defined.

(** X11. When none of the first 20 polls shows a fully healthy group,
    verify_deployment makes exactly 20 polls, sleeps 19 times 15 seconds
    (there is no sleep after the last poll), and returns False; further
    answers are left unread. *)
Theorem verify_deployment_exhausts arn w :
  (20 ≤ length (health_polls w))%nat →
  Forall not_yet_healthy (take 20 (health_polls w)) →
  ∃ w',
    Deploy.verify_deployment arn w = Some (Return false, w') ∧
    health_polls w' = drop 20 (health_polls w) ∧
    slept w' = slept w + 285 ∧
    calls w' = replicate 20 (DescribeTargetHealth arn) ++ calls w ∧
    s3 w' = s3 w.
Proof.
  intros Hlen Hall. unfold Deploy.verify_deployment.
  destruct (verify_loop_exhausts 20 arn (seqZ 0 20) w)
    as (w' & Hrun & Hrest & Hslept & Hcalls & Hs3).
  { by rewrite length_seqZ. }
  { by rewrite length_seqZ. }
  exists w'. rewrite length_seqZ in Hrest, Hcalls. by repeat split.
Qed.

Lemma verify_deployment_exhausts_witness :
  ∃ w',
    Deploy.verify_deployment "production-tg"
      (Samples.fresh [] (replicate 21 (Return ["healthy"; "draining"])))
    = Some (Return false, w') ∧
    slept w' = 285 ∧ length (health_polls w') = 1%nat.
Proof.
  destruct (verify_deployment_exhausts "production-tg"
              (Samples.fresh []
                 (replicate 21 (Return ["healthy"; "draining"]))))
    as (w' & Hrun & Hrest & Hslept & _).
  - cbn. lia.
  - cbn. repeat constructor; by eexists.
  - exists w'. split; [done|]. split; [done|]. by rewrite Hrest.
Defined.

(** X15. rolling_deployment returns True only along one path: the group
    exists and has a launch template, a new version of the template is
    created from the boot script of the image, the group is pointed at that
    very version, a rolling refresh with 50% minimum healthy and 300
    seconds warm-up is started, and after polls that show it in progress
    the refresh answers Successful. The calls are made in this order and
    no other call is made. *)
Theorem rolling_deployment_true image w w1 :
  Deploy.rolling_deployment aws environment image w
    = Some (Return true, w1) →
  ∃ asg groups lt_id version refresh_id pre refresh more,
    auto_scaling_groups aws = Return (asg :: groups) ∧
    LaunchTemplateId asg = Some lt_id ∧
    created_version aws = Return version ∧
    refresh_started aws = Return refresh_id ∧
    refresh_polls w = pre ++ Return (refresh :: more) :: refresh_polls w1 ∧
    Forall running pre ∧ Status refresh = "Successful" ∧
    calls w1
    = replicate (S (length pre))
        (DescribeInstanceRefreshes (environment +:+ "-asg") refresh_id)
      ++ [StartInstanceRefresh (environment +:+ "-asg") 50 300;
          UpdateAutoScalingGroup (environment +:+ "-asg") lt_id version;
          CreateLaunchTemplateVersion lt_id
            (DeployScript image environment);
          DescribeAutoScalingGroups (environment +:+ "-asg")]
      ++ calls w.
Proof.
  unfold Deploy.rolling_deployment, Deploy.update_launch_template,
    Deploy.get_asg_name.
  intros [(? & _ & [=])|(updated & w2 & Hupdate & Hrest)]%bind_run.
  apply bind_run in Hupdate as [(? & _ & [=])|(groups & w3 & Hg & Hupdate)].
  injection Hg as Hg <-. destruct groups as [|asg groups].
  { injection Hupdate as <- <-. done. }
  apply bind_run in Hupdate as [(? & _ & [=])|(lt_id & w4 & Hl & Hupdate)].
  injection Hl as Hl <-. unfold Deploy.launch_template_id in Hl.
  destruct (LaunchTemplateId asg) as [lt|] eqn:Hlt; [|done].
  injection Hl as ->.
  apply bind_run in Hupdate as [(? & _ & [=])|(version & w5 & Hv & Hupdate)].
  injection Hv as Hv <-.
  apply bind_run in Hupdate as [(? & _ & [=])|([] & w6 & Hu & Hupdate)].
  injection Hu as Hu <-. injection Hupdate as <- <-. cbn in Hrest.
  apply bind_run in Hrest as [(? & _ & [=])|(refresh_id & w7 & Hstart & Hmon)].
  injection Hstart as Hstart <-.
  pose proof Hmon as Hinv. unfold Deploy.monitor_refresh in Hinv.
  apply monitor_loop_returned in Hinv as (pre & answer & Hpolls & Hpre & Hv').
  cbn in Hpolls. destruct answer as [|refresh more]; [done|].
  assert (Status refresh = "Successful") as Hstatus.
  { cbn in Hv'.
    destruct (String.eqb_spec (Status refresh) "Successful"); [done|].
    by destruct (String.eqb (Status refresh) "Cancelled"
                 || String.eqb (Status refresh) "Failed"). }
  assert (∀ answer, Return (refresh :: more) = Return answer →
                    is_Some (refresh_verdict answer)) as Hlast.
  { intros answer [= <-]. by eexists. }
  unfold Deploy.monitor_refresh in Hmon. cbn [refresh_polls] in Hmon.
  match type of Hmon with
  | Deploy.monitor_loop ?n _ _ ?w0 = _ =>
      destruct (monitor_loop_run (environment +:+ "-asg") refresh_id
                  (Return (refresh :: more)) (refresh_polls w1) Hlast
                  pre n w0 Hpre)
        as (w' & Hrun & _ & _ & Hcalls & _)
  end.
  { exact Hpolls. }
  { rewrite Hpolls, length_app. cbn. lia. }
  rewrite Hmon in Hrun. cbn in Hcalls. injection Hrun as _ <-.
  exists asg, groups, lt_id, version, refresh_id, pre, refresh, more.
  by rewrite Hcalls.
Qed.

(** X12. Every run of the deploy script that ends, with a store that
    accepts writes, writes exactly one record, as its last call: under the
    key of the first clock reading, stamped with the second, with status
    success, failed or error according to whether rolling_deployment
    returned True, returned False or raised; the exit status is 0 for
    success and 1 otherwise. No other call of the run writes an object. *)
Theorem deploy_records_outcome version image w r w' :
  put_outcome aws = Return tt →
  Deploy.main aws environment version image w = Some (r, w') →
  ∃ outcome w1 new,
    Deploy.rolling_deployment aws environment image w = Some (outcome, w1) ∧
    r = Return (exit_status outcome) ∧
    calls w1 = new ++ calls w ∧ forallb silent new = true ∧
    let bucket := environment +:+ "-devops-artifacts" in
    let key :=
      "deployments/" +:+ isoformat_now aws (clock_reads w) +:+ ".json" in
    let record :=
      Deploy.deployment_record environment
        (isoformat_now aws (S (clock_reads w))) version image
        (recorded_status outcome) in
    s3 w' = <[(bucket, key) := JsonText record]> (s3 w) ∧
    calls w' = PutObject bucket key record :: calls w1.
Proof.
  intros Hput Hrun.
  destruct (deploy_main_run aws environment version image w r w' Hput Hrun)
    as (outcome & w1 & Hroll & (Hs3 & _ & Hclock & new & Hnew & Hsilent)
        & Hrec & ->).
  exists outcome, w1, new. repeat split; try done.
  - rewrite create_deployment_record_run, Hput in Hrec.
    injection Hrec as <-. cbn. by rewrite Hs3, Hclock.
  - rewrite create_deployment_record_run, Hput in Hrec.
    injection Hrec as <-. cbn. by rewrite Hclock.
Qed.


(** X14. When the group of the environment does not exist, or has no
    launch template, the deploy script makes no change to the cloud: its
    only calls are the description of the group and the write of the
    record, which has status failed in the first case and error in the
    second; the exit status is 1. *)
Theorem deploy_without_group version image w :
  put_outcome aws = Return tt →
  auto_scaling_groups aws = Return [] ∨
  (∃ asg groups, auto_scaling_groups aws = Return (asg :: groups) ∧
                 LaunchTemplateId asg = None) →
  ∃ w' status record,
    Deploy.main aws environment version image w = Some (Return 1, w') ∧
    status = match auto_scaling_groups aws with
             | Return [] => "failed"
             | _ => "error"
             end ∧
    record = Deploy.deployment_record environment
               (isoformat_now aws (S (clock_reads w))) version image status ∧
    calls w'
    = [PutObject (environment +:+ "-devops-artifacts")
         ("deployments/" +:+ isoformat_now aws (clock_reads w) +:+ ".json")
         record;
       DescribeAutoScalingGroups (environment +:+ "-asg")] ++ calls w.
Proof.
  intros Hput [Hnone|(asg & groups & Hsome & Hlt)];
    unfold Deploy.main, Deploy.rolling_deployment,
      Deploy.update_launch_template, Deploy.create_deployment_record,
      Deploy.launch_template_id, Deploy.get_asg_name, try_except,
      put_object, service, record_call, lift, datetime_now,
      mbind, M_bind, mret, M_ret.
  - rewrite Hnone, Hput. cbn. by do 3 eexists.
  - rewrite Hsome. cbn. rewrite Hlt, Hput. cbn. by do 3 eexists.
Qed.

End DeployMore.

Lemma rolling_deployment_true_witness :
  ∃ asg groups lt_id version refresh_id,
    auto_scaling_groups Samples.calm = Return (asg :: groups) ∧
    LaunchTemplateId asg = Some lt_id ∧
    created_version Samples.calm = Return version ∧
    refresh_started Samples.calm = Return refresh_id.
Proof.
  destruct (rolling_deployment_true Samples.calm "dev" "app:2.0"
              (Samples.fresh [Samples.refresh_in "Successful"] [])
              {| s3 := ∅;
                 calls :=
                   [DescribeInstanceRefreshes "dev-asg" "refresh-1";
                    StartInstanceRefresh "dev-asg" 50 300;
                    UpdateAutoScalingGroup "dev-asg" "lt-0a1b" 7;
                    CreateLaunchTemplateVersion "lt-0a1b"
                      (DeployScript "app:2.0" "dev");
                    DescribeAutoScalingGroups "dev-asg"];
                 refresh_polls := []; health_polls := [];
                 clock_reads := 0; slept := 0 |} eq_refl)
    as (asg & groups & lt_id & version & refresh_id & pre & refresh & more
        & Hg & Hlt & Hv & Hr & _).
  by exists asg, groups, lt_id, version, refresh_id.
Defined.

Lemma deploy_records_outcome_witness :
  ∃ outcome w1 new,
    Deploy.rolling_deployment Samples.calm "production" "app:2.0"
      (Samples.fresh [Samples.refresh_in "Cancelled"] [])
    = Some (outcome, w1) ∧
    (Return 1 : result Z) = Return (exit_status outcome) ∧
    calls w1 = new ++ [] ∧ forallb silent new = true.
Proof.
  destruct (deploy_records_outcome Samples.calm "production" "2.0" "app:2.0"
              (Samples.fresh [Samples.refresh_in "Cancelled"] [])
              (Return 1)
              {| s3 := {[ ("production-devops-artifacts",
                           "deployments/2024-05-01T10:00:00.json")
                          := JsonText (Deploy.deployment_record "production"
                               "2024-05-01T10:00:01" "2.0" "app:2.0"
                               "failed") ]};
                 calls :=
                   [PutObject "production-devops-artifacts"
                      "deployments/2024-05-01T10:00:00.json"
                      (Deploy.deployment_record "production"
                         "2024-05-01T10:00:01" "2.0" "app:2.0" "failed");
                    DescribeInstanceRefreshes "production-asg" "refresh-1";
                    StartInstanceRefresh "production-asg" 50 300;
                    UpdateAutoScalingGroup "production-asg" "lt-0a1b" 7;
                    CreateLaunchTemplateVersion "lt-0a1b"
                      (DeployScript "app:2.0" "production");
                    DescribeAutoScalingGroups "production-asg"];
                 refresh_polls := []; health_polls := [];
                 clock_reads := 2; slept := 0 |} eq_refl)
    as (outcome & w1 & new & Hroll & Hexit & Hnew & Hsilent & _).
  - vm_compute. reflexivity.
  - by exists outcome, w1, new.
Defined.


Lemma deploy_without_group_witness :
  let empty := {|
    auto_scaling_groups := Return [];
    created_version := created_version Samples.calm;
    update_outcome := update_outcome Samples.calm;
    refresh_started := refresh_started Samples.calm;
    template_versions := template_versions Samples.calm;
    put_outcome := Return tt;
    list_objects_v2 := list_objects_v2 Samples.calm;
    isoformat_now := isoformat_now Samples.calm |} in
  ∃ w',
    Deploy.main empty "staging" "2.0" "app:2.0" (Samples.fresh [] [])
    = Some (Return 1, w') ∧ length (calls w') = 2%nat.
Proof.
  intros empty.
  destruct (deploy_without_group empty "staging" "2.0" "app:2.0"
              (Samples.fresh [] []) eq_refl (or_introl eq_refl))
    as (w' & status & record & Hrun & _ & _ & Hcalls).
  exists w'. split; [exact Hrun|]. by rewrite Hcalls.
Defined.

(** * Further properties: the rollback manager *)
Section RollbackMore.
Context (aws : cloud) (environment : string).

Lemma insert_newest_first_filter k x l :
  filter (λ y, LastModified y = k) (Rollback.insert_newest_first x l)
  = filter (λ y, LastModified y = k) (x :: l).
Proof.
  induction l as [|y l IH]; cbn [Rollback.insert_newest_first]; [done|].
  destruct (Z.leb_spec (LastModified y) (LastModified x)); [done|].
  rewrite filter_cons, IH, !filter_cons.
  destruct (decide (LastModified y = k)), (decide (LastModified x = k));
    (lia || done).
Qed.

Lemma sorted_fixes_sorted l :
  newest_first l → Rollback.sorted_newest_first l = l.
Proof.
  unfold newest_first. induction 1 as [|x l Hsorted IH Hx]; [done|].
  change (Rollback.sorted_newest_first (x :: l))
    with (Rollback.insert_newest_first x (Rollback.sorted_newest_first l)).
  rewrite IH. destruct l as [|y l]; cbn; [done|].
  apply Forall_cons in Hx as [Hy _].
  by destruct (Z.leb_spec (LastModified y) (LastModified x)); [|lia].
Qed.

(** X16. The sort of get_deployment_history rearranges the listed objects
    (none is lost or added), puts them newest first by modification time,
    and is stable: objects with the same modification time keep the order
    of the listing. A listing that is already newest first is left as it
    is. *)
Theorem sorted_newest_first_stable contents :
  Rollback.sorted_newest_first contents ≡ₚ contents ∧
  newest_first (Rollback.sorted_newest_first contents) ∧
  (∀ k, filter (λ obj, LastModified obj = k)
          (Rollback.sorted_newest_first contents)
        = filter (λ obj, LastModified obj = k) contents) ∧
  (newest_first contents → Rollback.sorted_newest_first contents = contents).
Proof.
  split; [apply sorted_newest_first_perm|].
  split; [apply sorted_newest_first_sorted|].
  split; [|apply sorted_fixes_sorted].
  intros k. induction contents as [|x contents IH]; [done|].
  change (Rollback.sorted_newest_first (x :: contents))
    with (Rollback.insert_newest_first x
            (Rollback.sorted_newest_first contents)).
  by rewrite insert_newest_first_filter, !filter_cons, IH.
Qed.

Lemma omap_length_le {A B} (f : A → option B) (l : list A) :
  (length (omap f l) ≤ length l)%nat.
Proof. induction l as [|x l IH]; cbn; [done|]. destruct (f x); cbn; lia. Qed.

(** X17. get_deployment_history always returns and never raises: when the
    listing fails or has no contents the history is empty; otherwise every
    record of the history is the JSON document stored under a listed key,
    objects that are missing or not JSON are skipped, so the history is
    never longer than the listing. It writes nothing. *)
Theorem get_deployment_history_total limit w :
  ∃ history w',
    Rollback.get_deployment_history aws environment limit w
      = Some (Return history, w') ∧
    quiet_step w w' ∧
    (length history ≤ length (listed aws environment limit w))%nat ∧
    (∀ d, d ∈ history →
          ∃ obj, obj ∈ listed aws environment limit w ∧
                 s3 w !! (environment +:+ "-devops-artifacts", Key obj)
                 = Some (JsonText d)) ∧
    (listed aws environment limit w = [] → history = []).
Proof.
  destruct (get_deployment_history_run aws environment limit w)
    as (w' & Hrun & Hq).
  eexists _, w'. split; [exact Hrun|]. split; [done|]. split; [|split].
  - etrans; [apply omap_length_le|]. by rewrite sorted_newest_first_perm.
  - intros d (obj & Hin & Hdoc)%list_elem_of_omap.
    rewrite sorted_newest_first_perm in Hin. exists obj. split; [done|].
    unfold document in Hdoc.
    by destruct (s3 w !! (environment +:+ "-devops-artifacts", Key obj))
      as [[j|]|]; simplify_eq.
  - by intros ->.
Qed.

Lemma find_matching_text versions image :
  Rollback.find_matching_launch_template versions (JStr image)
  = Return (VersionNumber <$> List.find (mentions image) versions).
Proof.
  induction versions as [|version versions IH]; cbn; [done|].
  unfold mentions at 1. by destruct (contains image _).
Qed.

(** X18. find_matching_launch_template returns the number of the first
    version whose user data contains the image text (a version without
    user data counts as empty), and None when no version does; an image
    that is not a string raises TypeError as soon as there is a version to
    test, and gives None on an empty list. *)
Theorem find_matching_launch_template_first versions :
  (∀ image,
     Rollback.find_matching_launch_template versions (JStr image)
     = Return (VersionNumber <$> List.find (mentions image) versions)) ∧
  (∀ target, (∀ image, target ≠ JStr image) →
     Rollback.find_matching_launch_template versions target
     = match versions with
       | [] => Return None
       | _ => Raise TypeError
       end).
Proof.
  split; [apply find_matching_text|].
  intros target Hnot. destruct versions as [|version versions]; [done|].
  cbn. destruct target as [| | |image| |]; try done. by destruct (Hnot image).
Qed.

(** X19. The match is by substring, so it is inherited by shorter texts:
    when an image is matched by some version, every text contained in that
    image (a prefix such as "app:1" of "app:10") is matched as well, by
    that version or an earlier one. *)
Theorem find_matching_launch_template_substring versions image shorter v :
  Rollback.find_matching_launch_template versions (JStr image)
    = Return (Some v) →
  contains shorter image = true →
  ∃ v', Rollback.find_matching_launch_template versions (JStr shorter)
        = Return (Some v').
Proof.
  rewrite !find_matching_text. intros Hfound Hsub.
  destruct (List.find (mentions image) versions) as [version|] eqn:Hfind;
    [|done].
  apply find_some in Hfind as [Hin Hm].
  destruct (List.find (mentions shorter) versions) as [version'|] eqn:Hfind';
    [by eexists|].
  eapply find_none in Hfind'; [|exact Hin].
  unfold mentions in *. by rewrite (contains_trans image shorter) in Hfind'.
Qed.

Lemma find_matching_launch_template_substring_witness :
  ∃ v',
    Rollback.find_matching_launch_template
      [{| VersionNumber := 4; UserData := Some "docker pull app:10" |}]
      (JStr "app:1") = Return (Some v').
Proof.
  exact (find_matching_launch_template_substring
           [{| VersionNumber := 4; UserData := Some "docker pull app:10" |}]
           "app:10" "app:1" 4 eq_refl eq_refl).
Defined.

(** X20. The scan of find_previous_successful_deployment reports "not
    found" exactly when every record of the history is a JSON object whose
    status is not success; a record that is not an object makes the scan
    raise instead of being skipped. *)
Theorem first_successful_none history :
  Rollback.first_successful history = Return None ↔
  Forall (λ j, (∃ m, j = JObj m) ∧ is_success j = false) history.
Proof.
  induction history as [|j history IH]; cbn; [done|].
  rewrite Forall_cons, <- IH. clear IH.
  destruct j as [| | | | |m]; cbn;
    try (split; [done|by intros [[[m [=]] _] _]]).
  destruct (json_eq_str (dict_get "status" m) "success").
  - split; [|by intros [[_ [=]] _]].
    destruct (dict_get "version" m), (dict_get "image" m),
      (dict_get "timestamp" m); done.
  - split; [intros ->; eauto|by intros [_ ->]].
Qed.


(** X22. The two kinds of record never meet: record_rollback, whose keys
    start with "rollbacks/", leaves every object under "deployments/" as
    it was, so a rollback never changes the history that the next
    rollback reads; and create_deployment_record leaves every object
    under "rollbacks/" as it was. *)
Theorem record_prefixes_apart version image status target_version
    target_image w :
  (∃ w',
     Rollback.record_rollback aws environment target_version target_image w
       = Some (put_outcome aws, w') ∧
     ∀ bucket key, s3 w' !! (bucket, "deployments/" +:+ key)
                   = s3 w !! (bucket, "deployments/" +:+ key)) ∧
  (∃ w',
     Deploy.create_deployment_record aws environment version image status w
       = Some (put_outcome aws, w') ∧
     ∀ bucket key, s3 w' !! (bucket, "rollbacks/" +:+ key)
                   = s3 w !! (bucket, "rollbacks/" +:+ key)).
Proof.
  split.
  - rewrite record_rollback_run. eexists; split; [done|]. cbn.
    intros bucket key. destruct (put_outcome aws); [|done].
    apply lookup_insert_ne. intros Hkey%(f_equal snd). by cbv in Hkey.
  - rewrite create_deployment_record_run. eexists; split; [done|]. cbn.
    intros bucket key. destruct (put_outcome aws); [|done].
    apply lookup_insert_ne. intros Hkey%(f_equal snd). by cbv in Hkey.
Qed.

(** X23. Every run of the rollback script that ends, with a store that
    accepts writes, exits with status 0 or 1. With status 0 the last call
    of the run has written one rollback record, under the key of the
    current clock reading, and nothing else was written; with status 1
    nothing was written at all. *)
Theorem rollback_records_success previous_version image w r w' :
  put_outcome aws = Return tt →
  Rollback.main aws environment previous_version image w = Some (r, w') →
  (r = Return 0 ∧
   ∃ w1 target_version target_image,
     quiet_step w w1 ∧
     s3 w'
     = <[(environment +:+ "-devops-artifacts",
          "rollbacks/" +:+ isoformat_now aws (clock_reads w) +:+ ".json")
         := JsonText (Rollback.rollback_record environment
                        (isoformat_now aws (S (clock_reads w)))
                        target_version target_image)]> (s3 w) ∧
     calls w'
     = PutObject (environment +:+ "-devops-artifacts")
         ("rollbacks/" +:+ isoformat_now aws (clock_reads w) +:+ ".json")
         (Rollback.rollback_record environment
            (isoformat_now aws (S (clock_reads w)))
            target_version target_image) :: calls w1) ∨
  (r = Return 1 ∧ quiet_step w w').
Proof.
  intros Hput Hrun.
  destruct (rollback_main_run aws environment previous_version image w r w'
              Hput Hrun)
    as [(-> & w1 & tv & ti & Hq & Hrec)|[-> Hq]]; [left|by right].
  split; [done|]. exists w1, tv, ti. split; [done|].
  rewrite record_rollback_run, Hput in Hrec. injection Hrec as <-.
  destruct Hq as (Hs3 & _ & Hclock & _). cbn. by rewrite Hs3, Hclock.
Qed.

Lemma truthy_number n : n ≠ 0 → truthy (JNum (inject_Z n)) = true.
Proof. intros Hn. destruct n; [done|reflexivity..]. Qed.

(** X24. A rollback to a version number alone (--previous-version without
    --image) never reaches the group when the launch template has any
    version: the substring test on the missing image raises TypeError, the
    run ends with exit status 1 after the two descriptions, nothing is
    written and the history is not read. A version number of 0 is taken as
    absent. *)
Theorem rollback_by_version_only n asg groups lt_id version versions w :
  n ≠ 0 →
  auto_scaling_groups aws = Return (asg :: groups) →
  LaunchTemplateId asg = Some lt_id →
  template_versions aws = Return (version :: versions) →
  (∃ w',
     Rollback.rollback_to_version aws environment (JNum (inject_Z n)) JNull w
       = Some (Raise TypeError, w') ∧
     Rollback.main aws environment (Some n) None w = Some (Return 1, w') ∧
     calls w' = [DescribeLaunchTemplateVersions lt_id 100;
                 DescribeAutoScalingGroups (environment +:+ "-asg")]
                ++ calls w ∧
     s3 w' = s3 w) ∧
  Rollback.main aws environment (Some 0) None w
  = Rollback.main aws environment None None w.
Proof.
  intros Hn Hg Hlt Hversions. split; [|done].
  unfold Rollback.main, Rollback.arg_version, Rollback.arg_image,
    Rollback.rollback_to_version, Rollback.resolve_target,
    Rollback.get_launch_template_versions, Deploy.launch_template_id,
    try_except, service, record_call, lift, mbind, M_bind, mret, M_ret.
  rewrite (truthy_number n Hn). cbn. rewrite Hg. cbn. rewrite Hlt. cbn.
  rewrite Hversions. cbn. by eexists.
Qed.

(** X25. A rollback to an image that is given explicitly does not read the
    history. Up to the monitoring of the refresh it describes the group,
    lists the versions of the launch template, and then either points the
    group at the first existing version whose user data contains the image
    (no new version is created), or, when there is none, creates a version
    from the rollback script of the image and points the group at that
    one; then it starts the refresh. *)
Theorem rollback_to_image_steps target_version image asg groups lt_id
    versions refresh_id w :
  image ≠ "" →
  auto_scaling_groups aws = Return (asg :: groups) →
  LaunchTemplateId asg = Some lt_id →
  template_versions aws = Return versions →
  update_outcome aws = Return tt →
  refresh_started aws = Return refresh_id →
  let asg_name := environment +:+ "-asg" in
  let after made :=
    {| s3 := s3 w; calls := made ++ calls w;
       refresh_polls := refresh_polls w; health_polls := health_polls w;
       clock_reads := clock_reads w; slept := slept w |} in
  let finish : M bool :=
    success ← Rollback.monitor_refresh asg_name refresh_id;
    _ ← (if success : bool
         then Rollback.record_rollback aws environment target_version
                (JStr image)
         else mret tt);
    mret success in
  (∀ found, List.find (mentions image) versions = Some found →
            VersionNumber found ≠ 0 →
     Rollback.rollback_to_version aws environment target_version
       (JStr image) w
     = finish (after [StartInstanceRefresh asg_name 50 300;
                      UpdateAutoScalingGroup asg_name lt_id
                        (VersionNumber found);
                      DescribeLaunchTemplateVersions lt_id 100;
                      DescribeAutoScalingGroups asg_name])) ∧
  (∀ created, List.find (mentions image) versions = None →
              created_version aws = Return created →
     Rollback.rollback_to_version aws environment target_version
       (JStr image) w
     = finish (after [StartInstanceRefresh asg_name 50 300;
                      UpdateAutoScalingGroup asg_name lt_id created;
                      CreateLaunchTemplateVersion lt_id
                        (RollbackScript (JStr image) environment);
                      DescribeLaunchTemplateVersions lt_id 100;
                      DescribeAutoScalingGroups asg_name])).
Proof.
  intros Himage Hg Hlt Hversions Hupdate Hstart asg_name after finish.
  assert (truthy (JStr image) = true) as Htruthy.
  { cbn. by destruct (String.eqb_spec image ""). }
  split.
  - intros found Hfound Hnonzero. subst finish after asg_name.
    unfold Rollback.rollback_to_version, Rollback.resolve_target,
      Rollback.get_launch_template_versions, Deploy.launch_template_id.
    rewrite Htruthy, andb_false_r.
    unfold service, record_call, lift, mbind, M_bind, mret, M_ret.
    cbn. rewrite Hg. cbn. rewrite Hlt. cbn. rewrite Hversions. cbn.
    rewrite find_matching_text, Hfound. cbn.
    destruct (Z.eqb_spec (VersionNumber found) 0); [done|].
    rewrite Hupdate. cbn. rewrite Hstart. done.
  - intros created Hnone Hcreated. subst finish after asg_name.
    unfold Rollback.rollback_to_version, Rollback.resolve_target,
      Rollback.get_launch_template_versions, Deploy.launch_template_id,
      Rollback.create_rollback_version.
    rewrite Htruthy, andb_false_r.
    unfold service, record_call, lift, mbind, M_bind, mret, M_ret.
    cbn. rewrite Hg. cbn. rewrite Hlt. cbn. rewrite Hversions. cbn.
    rewrite find_matching_text, Hnone. cbn.
    rewrite Hcreated. cbn. rewrite Hupdate. cbn. rewrite Hstart. done.
Qed.

(** X26. With no target given and a history query that lists nothing (the
    store is empty, or the listing fails), the rollback script gives up at
    once: its only call is the listing with a window of 20, it writes
    nothing, and the exit status is 1. *)
Theorem rollback_without_history w :
  listed aws environment 20 w = [] →
  Rollback.main aws environment None None w
  = Some (Return 1,
          {| s3 := s3 w;
             calls := ListObjectsV2 (environment +:+ "-devops-artifacts")
                        "deployments/" 20 :: calls w;
             refresh_polls := refresh_polls w;
             health_polls := health_polls w;
             clock_reads := clock_reads w; slept := slept w |}).
Proof.
  unfold listed, Rollback.main, Rollback.rollback_to_version,
    Rollback.resolve_target, Rollback.find_previous_successful_deployment,
    Rollback.get_deployment_history, try_except, service, record_call, lift,
    mbind, M_bind, mret, M_ret.
  cbn.
  by destruct (list_objects_v2 aws (s3 w)
                 (environment +:+ "-devops-artifacts") "deployments/" 20)
    as [[[|obj contents]|]|e].
Qed.

End RollbackMore.


Lemma rollback_records_success_witness :
  ∃ r w',
    Rollback.main Samples.calm "production" None (Some "app:1.0")
      (Samples.fresh [Samples.refresh_in "Successful"] []) = Some (r, w') ∧
    r = Return 0.
Proof.
  destruct (Rollback.main Samples.calm "production" None (Some "app:1.0")
              (Samples.fresh [Samples.refresh_in "Successful"] []))
    as [[r w']|] eqn:Hrun; [|vm_compute in Hrun; discriminate Hrun].
  exists r, w'. split; [reflexivity|].
  destruct (rollback_records_success Samples.calm "production" None
              (Some "app:1.0") _ r w' eq_refl Hrun)
    as [(Hr & _)|[Hr _]]; [exact Hr|].
  rewrite Hr in Hrun. vm_compute in Hrun. discriminate Hrun.
Defined.

Lemma rollback_by_version_only_witness :
  ∃ w',
    Rollback.main Samples.versioned "production" (Some 2) None
      (Samples.rerun []) = Some (Return 1, w') ∧
    calls w' = [DescribeLaunchTemplateVersions "lt-0a1b" 100;
                DescribeAutoScalingGroups "production-asg"].
Proof.
  destruct (rollback_by_version_only Samples.versioned "production" 2
              {| LaunchTemplateId := Some "lt-0a1b" |} [] "lt-0a1b"
              {| VersionNumber := 3; UserData := Some "docker pull app:1.0" |}
              [] (Samples.rerun []) ltac:(lia) eq_refl eq_refl eq_refl)
    as [(w' & _ & Hmain & Hcalls & _) _].
  exists w'. split; [exact Hmain|exact Hcalls].
Defined.

Lemma rollback_to_image_steps_witness :
  Rollback.rollback_to_version Samples.versioned "production" JNull
    (JStr "app:1.0") (Samples.rerun [Samples.refresh_in "Successful"])
  = (success ← Rollback.monitor_refresh "production-asg" "refresh-1";
     _ ← (if success : bool
          then Rollback.record_rollback Samples.versioned "production" JNull
                 (JStr "app:1.0")
          else mret tt);
     mret success)
      {| s3 := Samples.archive;
         calls := [StartInstanceRefresh "production-asg" 50 300;
                   UpdateAutoScalingGroup "production-asg" "lt-0a1b" 3;
                   DescribeLaunchTemplateVersions "lt-0a1b" 100;
                   DescribeAutoScalingGroups "production-asg"];
         refresh_polls := [Samples.refresh_in "Successful"];
         health_polls := []; clock_reads := 0; slept := 0 |}.
Proof.
  refine (proj1 (rollback_to_image_steps Samples.versioned "production"
                   JNull "app:1.0" {| LaunchTemplateId := Some "lt-0a1b" |}
                   [] "lt-0a1b"
                   [{| VersionNumber := 3;
                       UserData := Some "docker pull app:1.0" |}]
                   "refresh-1"
                   (Samples.rerun [Samples.refresh_in "Successful"])
                   _ eq_refl eq_refl eq_refl eq_refl eq_refl)
            {| VersionNumber := 3; UserData := Some "docker pull app:1.0" |}
            eq_refl _); done.
Defined.

Lemma rollback_without_history_witness :
  Rollback.main Samples.calm "staging" None None (Samples.fresh [] [])
  = Some (Return 1,
          {| s3 := ∅;
             calls := [ListObjectsV2 "staging-devops-artifacts"
                         "deployments/" 20];
             refresh_polls := []; health_polls := [];
             clock_reads := 0; slept := 0 |}).
Proof.
  exact (rollback_without_history Samples.calm "staging"
           (Samples.fresh [] []) eq_refl).
Defined.
